(** * Status monitor: normalizer, change detector and notification gate

    A shallow embedding of the status-change engine of [src/main.py]
    ([normalize_status], [should_send_notification],
    [detect_enhanced_status_changes]) together with the properties the
    specification states about it, and of the code around it: the
    presentation helpers, [send_enhanced_slack_notification], the body of
    [enhanced_continuous_monitoring], and the Azure and AWS status trees.

    Modelling conventions.
    - A Python [str] is a Rocq [string]; a character is read as the code
      point U+0000..U+00FF it denotes (code points above U+00FF are outside
      the model).  [str.lower] and [str.strip] are written out on that range.
    - A Python [dict] with string keys is a [gmap string _]; a dict whose
      iteration order matters (a component tree) is an association list.
    - The module globals [status_change_buffer], [last_notification_times],
      [notification_history] and [rate_limiter] are explicit state, threaded
      through the functions that declare them [global].
    - [datetime.utcnow()] is an input [now : Z], an instant in microseconds
      (the resolution of [datetime]); the environment constants
      [NOTIFICATION_COOLDOWN], [MAX_NOTIFICATIONS_PER_HOUR] and
      [CHANGE_CONFIRMATION_CYCLES] are section variables. *)

From Stdlib Require Import ZArith Ascii String List Bool Lia.
From stdpp Require Import gmap strings list fin_maps.
Import ListNotations.
Local Open Scope string_scope.
Local Open Scope list_scope.
Local Open Scope Z_scope.

(** ** Python string primitives *)

Module PyStr.

(** Code point of a character. *)
Definition code (c : ascii) : N := N_of_ascii c.

(** [str.lower] on one code point of U+0000..U+00FF: A-Z, and the Latin-1
    capitals U+00C0..U+00DE other than the multiplication sign U+00D7. *)
Definition is_upper (c : ascii) : bool :=
  let n := code c in
  ((65 <=? n) && (n <=? 90) ||
   (192 <=? n) && (n <=? 222) && negb (n =? 215))%N.

Definition lower_char (c : ascii) : ascii :=
  if is_upper c then ascii_of_N (code c + 32) else c.

(** [str.isspace] on one code point of U+0000..U+00FF: TAB, LF, VT, FF, CR,
    the separators U+001C..U+001F, SPACE, NEL (U+0085) and NBSP (U+00A0). *)
Definition is_space (c : ascii) : bool :=
  let n := code c in
  ((9 <=? n) && (n <=? 13) || (28 <=? n) && (n <=? 32) ||
   (n =? 133) || (n =? 160))%N.

Fixpoint lower (s : string) : string :=
  match s with
  | EmptyString => EmptyString
  | String c r => String (lower_char c) (lower r)
  end.

Fixpoint lstrip (s : string) : string :=
  match s with
  | EmptyString => EmptyString
  | String c r => if is_space c then lstrip r else s
  end.

Fixpoint rstrip (s : string) : string :=
  match s with
  | EmptyString => EmptyString
  | String c r =>
      match rstrip r with
      | EmptyString => if is_space c then EmptyString else String c EmptyString
      | r' => String c r'
      end
  end.

(** [str.strip()] with no argument. *)
Definition strip (s : string) : string := rstrip (lstrip s).

(** [x in [a, b, ...]] for strings. *)
Definition mem (x : string) (l : list string) : bool :=
  existsb (String.eqb x) l.

(** Truthiness of a [str]: only the empty string is falsy. *)
Definition truthy (s : string) : bool :=
  match s with EmptyString => false | _ => true end.

(** Every character of [s] is whitespace. *)
Fixpoint all_space (s : string) : bool :=
  match s with
  | EmptyString => true
  | String c r => is_space c && all_space r
  end.

End PyStr.

(** ** Status normalizer ([normalize_status]) *)

Definition operational_aliases : list string :=
  ["operational"; "available"; "normal"; "ok"; "green"; "up"].
Definition degraded_aliases : list string :=
  ["degraded performance"; "degraded_performance"; "degraded";
   "partial_outage"; "partial outage"; "minor issue"; "minor_issue"].
Definition major_outage_aliases : list string :=
  ["major_outage"; "major outage"; "down"; "red"; "critical"; "outage"; "error"].
Definition maintenance_aliases : list string :=
  ["maintenance"; "scheduled maintenance"; "under_maintenance"].
Definition investigating_aliases : list string :=
  ["investigating"; "identified"; "monitoring"].

Definition normalize_status (status : string) : string :=
  if negb (PyStr.truthy status) then "unknown"
  else
    let status_lower := PyStr.strip (PyStr.lower status) in
    if PyStr.mem status_lower operational_aliases then "operational"
    else if PyStr.mem status_lower degraded_aliases then "degraded"
    else if PyStr.mem status_lower major_outage_aliases then "major_outage"
    else if PyStr.mem status_lower maintenance_aliases then "maintenance"
    else if PyStr.mem status_lower investigating_aliases then "investigating"
    else status_lower.

(** The argument may also be Python's [None] (an absent status), which is
    falsy like the empty string. *)
Definition normalize_value (status : option string) : string :=
  match status with
  | None => "unknown"
  | Some s => normalize_status s
  end.

(** ** Data model *)

(** [EnhancedSlackNotification].  [timestamp] is the clock reading of the
    detection pass and [incident_id] the pair that the source prints as
    [service-seconds]. *)
Record EnhancedSlackNotification := {
  service : string;
  previous_status : string;
  current_status : string;
  timestamp : Z;
  severity : string;
  priority : string;
  components_affected : list string;
  duration : string;
  impact_description : string;
  recovery_eta : option string;
  incident_url : option string;
  region : option string;
  incident_id : option (string * Z)
}.

(** One component entry of a snapshot: a dict (of which the detector reads
    the string fields ["status"] and ["name"]), a bare status string, or a
    value of another type. *)
Inductive CompInfo :=
| CompDict (fields : gmap string string)
| CompStr (status : string)
| CompOther.

(** The component breakdown of one service: a dict (in insertion order), a
    list, or a value of another type. *)
Inductive ComponentTree :=
| TreeDict (items : list (string * CompInfo))
| TreeList (items : list CompInfo)
| TreeOther.

(** A status snapshot, as far as the detector reads it: the optional keys
    ["details"] and ["components"]. *)
Record Snapshot := {
  details : option (gmap string string);
  components : option (gmap string ComponentTree)
}.

(** An entry of [status_change_buffer]. *)
Record BufferEntry := {
  count : Z;
  first_seen : Z;
  buf_previous_status : string;
  buf_current_status : string;
  normalized_current : string;
  normalized_previous : string
}.

(** An entry of [notification_history]; the timestamp key may be missing
    ([entry.get('timestamp', current_time)]). *)
Record HistoryEntry := {
  hist_service : string;
  hist_timestamp : option Z;
  hist_status_change : string
}.

(** The globals of the notification gate. *)
Record GateState := {
  rate_limiter : gmap string Z;
  notification_history : list HistoryEntry;
  last_notification_times : gmap string Z
}.

Definition MONITORED_SERVICES : list string :=
  ["github"; "datadog"; "jira"; "jsm"; "prisma"; "grafana"; "okta";
   "cleverbridge"; "azure"; "aws"].

Definition SERVICE_PRIORITIES : gmap string string :=
  list_to_map
    [("github", "high"); ("datadog", "critical"); ("jira", "medium");
     ("jsm", "high"); ("prisma", "high"); ("grafana", "medium");
     ("okta", "critical"); ("cleverbridge", "low"); ("azure", "critical");
     ("aws", "critical")].

Definition incident_urls : gmap string string :=
  list_to_map
    [("github", "https://www.githubstatus.com");
     ("datadog", "https://status.datadoghq.com");
     ("jira", "https://jira-software.status.atlassian.com");
     ("jsm", "https://jira-service-management.status.atlassian.com");
     ("prisma", "https://www.prisma-status.com");
     ("grafana", "https://status.grafana.com");
     ("okta", "https://status.okta.com");
     ("cleverbridge", "https://status.cleverbridge.com")].

(** Microseconds per second and per hour. *)
Definition usec : Z := 1000000.
Definition one_hour : Z := 3600 * usec.

(** A cooldown, in seconds, up to which the float comparison of the source
    is the exact one: 2^33 seconds, some 272 years. *)
Definition exact_cooldown_bound : Z := 2 ^ 33.

(** ** Notification gate ([should_send_notification]) *)

Section Gate.
Variable NOTIFICATION_COOLDOWN : Z.        (* seconds *)
Variable MAX_NOTIFICATIONS_PER_HOUR : Z.

(** The recovery test of the gate. *)
Definition is_recovery (notification : EnhancedSlackNotification) : bool :=
  String.eqb (normalize_status (current_status notification)) "operational"
  && negb (String.eqb (normalize_status (previous_status notification))
                      "operational").

(** [service in last_notification_times] and
    [time_diff < NOTIFICATION_COOLDOWN]: the difference of two instants in
    microseconds against the cooldown in seconds.  The source compares the
    float [total_seconds()] of the difference with the integer cooldown;
    that is this exact comparison as long as the cooldown is below 2^34
    seconds, where a float still separates a whole number of seconds from
    one microsecond less. *)
Definition cooldown_active (service : string) (current_time : Z)
    (st : GateState) : bool :=
  match last_notification_times st !! service with
  | Some last => current_time - last <? NOTIFICATION_COOLDOWN * usec
  | None => false
  end.

(** The list comprehension [recent_notifications]. *)
Definition recent_notifications (current_time : Z)
    (history : list HistoryEntry) : list HistoryEntry :=
  List.filter
    (fun entry =>
       current_time - default current_time (hist_timestamp entry) <? one_hour)
    history.

Definition should_send_notification
    (notification : EnhancedSlackNotification) (current_time : Z)
    (st : GateState) : bool * GateState :=
  let service := service notification in
  if is_recovery notification then
    (true,
     {| rate_limiter := rate_limiter st;
        notification_history := notification_history st;
        last_notification_times :=
          <[service := current_time]> (last_notification_times st) |})
  else if cooldown_active service current_time st then (false, st)
  else if MAX_NOTIFICATIONS_PER_HOUR <=?
            Z.of_nat (length (recent_notifications current_time
                                (notification_history st)))
  then (false, st)
  else
    (true,
     {| rate_limiter := rate_limiter st;
        notification_history :=
          notification_history st ++
            [ {| hist_service := service;
                 hist_timestamp := Some current_time;
                 hist_status_change :=
                   previous_status notification +:+ " -> " +:+
                   current_status notification |} ];
        last_notification_times :=
          <[service := current_time]> (last_notification_times st) |}).
End Gate.

(** ** Change detector ([detect_enhanced_status_changes]) *)

(** Component analysis: names of the components whose own status does not
    normalize to operational. *)
Definition affected_of_dict_item (item : string * CompInfo) : list string :=
  match item.2 with
  | CompDict fields =>
      if negb (String.eqb (normalize_status (default "" (fields !! "status")))
                          "operational")
      then [item.1] else []
  | CompStr s =>
      if negb (String.eqb (normalize_status s) "operational")
      then [item.1] else []
  | CompOther => []
  end.

Definition affected_of_list_item (comp : CompInfo) : list string :=
  match comp with
  | CompDict fields =>
      if negb (String.eqb (normalize_status (default "" (fields !! "status")))
                          "operational")
      then [default "Unknown Component" (fields !! "name")] else []
  | _ => []
  end.

Definition affected_components (current : Snapshot) (service : string)
    : list string :=
  match default ∅ (components current) !! service with
  | Some (TreeDict items) => List.concat (List.map affected_of_dict_item items)
  | Some (TreeList items) => List.concat (List.map affected_of_list_item items)
  | _ => []
  end.

Definition severity_of (current_normalized : string) : string :=
  if String.eqb current_normalized "operational" then "resolved"
  else if String.eqb current_normalized "major_outage" then "critical"
  else if PyStr.mem current_normalized ["degraded"; "investigating"] then "warning"
  else if String.eqb current_normalized "maintenance" then "info"
  else "warning".

(** The notification built at the end of a loop iteration. *)
Definition make_notification (current : Snapshot) (now : Z)
    (service previous_service_status current_service_status : string)
    : EnhancedSlackNotification :=
  let current_normalized := normalize_status current_service_status in
  {| service := service;
     previous_status := previous_service_status;
     current_status := current_service_status;
     timestamp := now;
     severity := severity_of current_normalized;
     priority := default "medium" (SERVICE_PRIORITIES !! service);
     components_affected := take 5 (affected_components current service);
     duration := if negb (String.eqb current_normalized "operational")
                 then "ongoing" else "resolved";
     impact_description := "";
     recovery_eta := None;
     incident_url := incident_urls !! service;
     region := None;
     incident_id := Some (service, now / usec) |}.

(** [current_status.get("details", {})] at a service, and
    [previous.get("details", {}).get(service, "unknown")]. *)
Definition current_raw (current : Snapshot) (service : string)
    : option string :=
  default ∅ (details current) !! service.

Definition previous_raw (previous : Snapshot) (service : string) : string :=
  default "unknown" (default ∅ (details previous) !! service).

(** The key of the pending-confirmation buffer. *)
Definition buffer_key (service current_normalized : string) : string :=
  service +:+ "_" +:+ current_normalized.

(** The test that sends a change immediately. *)
Definition is_immediate (current_normalized previous_normalized : string)
    : bool :=
  PyStr.mem current_normalized ["major_outage"; "degraded"]
  || String.eqb current_normalized "operational"
     && PyStr.mem previous_normalized ["major_outage"; "degraded"].

(** The dict stored on the first observation of a minor change. *)
Definition new_entry (now : Z)
    (previous_service_status current_service_status : string) : BufferEntry :=
  {| count := 1;
     first_seen := now;
     buf_previous_status := previous_service_status;
     buf_current_status := current_service_status;
     normalized_current := normalize_status current_service_status;
     normalized_previous := normalize_status previous_service_status |}.

(** [status_change_buffer[buffer_key]['count'] += 1]. *)
Definition bump_count (entry : BufferEntry) : BufferEntry :=
  {| count := count entry + 1;
     first_seen := first_seen entry;
     buf_previous_status := buf_previous_status entry;
     buf_current_status := buf_current_status entry;
     normalized_current := normalized_current entry;
     normalized_previous := normalized_previous entry |}.

(** The two tests that skip a service: no change of a known status, and the
    first sight of an operational service. *)
Definition is_skipped (current_normalized previous_normalized : string)
    : bool :=
  String.eqb current_normalized previous_normalized
  && negb (String.eqb previous_normalized "unknown")
  || String.eqb previous_normalized "unknown"
     && String.eqb current_normalized "operational".

Section Detector.
Variable CHANGE_CONFIRMATION_CYCLES : Z.
Variables (current_status previous : Snapshot) (now : Z).

(** The tail of the buffered branch: the count check and the [pop]. *)
Definition confirm_buffered (key : string)
    (notification : EnhancedSlackNotification)
    (buf : gmap string BufferEntry)
    : option EnhancedSlackNotification * gmap string BufferEntry :=
  match buf !! key with
  | Some entry =>
      if count entry <? CHANGE_CONFIRMATION_CYCLES then (None, buf)
      else (Some notification, delete key buf)
  | None => (None, buf)   (* KeyError; the key was just written *)
  end.

(** One iteration of the loop over [MONITORED_SERVICES]: the notification
    appended, if any, and the buffer afterwards. *)
Definition detect_service (service : string)
    (status_change_buffer : gmap string BufferEntry)
    : option EnhancedSlackNotification * gmap string BufferEntry :=
  match current_raw current_status service with
  | None => (None, status_change_buffer)
  | Some current_service_status =>
      let previous_service_status := previous_raw previous service in
      let current_normalized := normalize_status current_service_status in
      let previous_normalized := normalize_status previous_service_status in
      if String.eqb current_normalized previous_normalized
         && negb (String.eqb previous_normalized "unknown")
      then (None, status_change_buffer)
      else if String.eqb previous_normalized "unknown"
              && String.eqb current_normalized "operational"
      then (None, status_change_buffer)
      else
        let key := buffer_key service current_normalized in
        let notification :=
          make_notification current_status now service
            previous_service_status current_service_status in
        if is_immediate current_normalized previous_normalized
        then (Some notification, status_change_buffer)
        else
          match status_change_buffer !! key with
          | None =>
              let buf1 :=
                <[key := new_entry now previous_service_status
                           current_service_status]>
                  status_change_buffer in
              if 1 <? CHANGE_CONFIRMATION_CYCLES then (None, buf1)
              else confirm_buffered key notification buf1
          | Some entry =>
              let buf1 :=
                <[key := bump_count entry]> status_change_buffer in
              confirm_buffered key notification buf1
          end
  end.

(** The [for] loop, over any list of services. *)
Fixpoint detect_loop (services : list string)
    (status_change_buffer : gmap string BufferEntry)
    : list EnhancedSlackNotification * gmap string BufferEntry :=
  match services with
  | [] => ([], status_change_buffer)
  | service :: rest =>
      let '(emitted, buf1) := detect_service service status_change_buffer in
      let '(notifications, buf2) := detect_loop rest buf1 in
      (match emitted with
       | Some n => n :: notifications
       | None => notifications
       end, buf2)
  end.

Definition detect_enhanced_status_changes
    (status_change_buffer : gmap string BufferEntry)
    : list EnhancedSlackNotification * gmap string BufferEntry :=
  detect_loop MONITORED_SERVICES status_change_buffer.
End Detector.

(** The notifications of a list that concern one service. *)
Definition for_service (s : string) (l : list EnhancedSlackNotification)
    : list EnhancedSlackNotification :=
  List.filter (fun n => String.eqb (service n) s) l.

(** ** The normalizer as the specification words it *)

(** The specification's mapping table, row by row. *)
Definition spec_alias_table : list (list string * string) :=
  [ (["operational"; "available"; "normal"; "ok"; "green"; "up"],
     "operational");
    (["degraded performance"; "degraded"; "partial_outage"; "partial outage";
      "minor issue"], "degraded");
    (["major_outage"; "major outage"; "down"; "red"; "critical"; "outage";
      "error"], "major_outage");
    (["maintenance"; "scheduled maintenance"; "under_maintenance"],
     "maintenance");
    (["investigating"; "identified"; "monitoring"], "investigating") ].

(** The two aliases of [degraded] that the source accepts beyond the
    specification's table. *)
Definition extra_degraded_aliases : list string :=
  ["degraded_performance"; "minor_issue"].

(** Normalization by a table, in the specification's words: empty or absent
    input is [unknown]; otherwise the lower-cased trimmed input is looked up
    in the table, and passes through when no row lists it. *)
Definition normalize_by_table (table : list (list string * string))
    (raw : option string) : string :=
  match raw with
  | None | Some EmptyString => "unknown"
  | Some s =>
      let t := PyStr.strip (PyStr.lower s) in
      match List.find (fun row => PyStr.mem t row.1) table with
      | Some row => row.2
      | None => t
      end
  end.

(** The specification's table with the two extra aliases added to the
    [degraded] row. *)
Definition amended_alias_table : list (list string * string) :=
  List.map
    (fun row =>
       if String.eqb row.2 "degraded"
       then ((row.1 ++ extra_degraded_aliases)%list, row.2) else row)
    spec_alias_table.

(** ** Variants of a string up to letter case and surrounding whitespace *)

(** Two characters that are equal or one the lower-case form of the other. *)
Definition same_letter (a b : ascii) : Prop :=
  a = b \/ PyStr.lower_char a = b \/ PyStr.lower_char b = a.

Inductive case_variant : string -> string -> Prop :=
| cv_nil : case_variant EmptyString EmptyString
| cv_cons a b s t :
    same_letter a b -> case_variant s t ->
    case_variant (String a s) (String b t).

(** [s] and [t] are a common core, up to letter case, each wrapped in its
    own leading and trailing whitespace. *)
Definition case_ws_variant (s t : string) : Prop :=
  exists l1 r1 l2 r2 c1 c2,
    PyStr.all_space l1 = true /\ PyStr.all_space r1 = true /\
    PyStr.all_space l2 = true /\ PyStr.all_space r2 = true /\
    case_variant c1 c2 /\
    s = l1 +:+ c1 +:+ r1 /\ t = l2 +:+ c2 +:+ r2.

(** ** Presentation helpers ([get_status_emoji], [get_priority_color]) *)

(** The [severity] argument is accepted and not read. *)
Definition get_status_emoji (status severity : string) : string :=
  let normalized := normalize_status status in
  if String.eqb normalized "operational" then ":white_check_mark:"
  else if PyStr.mem normalized ["degraded"; "investigating"] then ":warning:"
  else if String.eqb normalized "major_outage" then ":red_circle:"
  else if String.eqb normalized "maintenance" then ":wrench:"
  else ":question:".

Definition priority_colors : gmap string string :=
  list_to_map
    [("critical", "danger"); ("high", "warning"); ("medium", "warning");
     ("low", "#439FE0")].

Definition get_priority_color (priority status_change : string) : string :=
  let normalized_current := normalize_status status_change in
  if String.eqb normalized_current "operational" then "good"
  else if String.eqb normalized_current "major_outage" then "danger"
  else if PyStr.mem normalized_current ["degraded"; "investigating"]
  then "warning"
  else if String.eqb normalized_current "maintenance" then "#439FE0"
  else default "warning" (priority_colors !! priority).

(** ** Status of a service from its count of issues *)

Definition calculate_status_color (red_issue_count : Z) : string :=
  if red_issue_count =? 0 then "green"
  else if red_issue_count <=? 2 then "orange"
  else "red".

Definition calculate_status_label (red_issue_count : Z) : string :=
  if red_issue_count =? 0 then "OPERATIONAL"
  else if red_issue_count <=? 2 then "MINOR ISSUE"
  else "DEGRADED".

(** ** Sending a notification ([send_enhanced_slack_notification]) *)

(** What the HTTP POST to the webhook does: it answers with a status code, or
    the client raises. *)
Inductive HttpOutcome :=
| HttpStatus (code : Z)
| HttpRaised.

Section Sender.
Variable SLACK_WEBHOOK_URL : option string.   (* [os.getenv]: None if unset *)
Variable NOTIFICATION_COOLDOWN : Z.
Variable MAX_NOTIFICATIONS_PER_HOUR : Z.

(** [not SLACK_WEBHOOK_URL]. *)
Definition webhook_missing : bool :=
  match SLACK_WEBHOOK_URL with
  | Some url => negb (PyStr.truthy url)
  | None => true
  end.

(** The result and the gate state afterwards.  The payload built between the
    gate and the POST only feeds the POST, whose outcome is an input here. *)
Definition send_enhanced_slack_notification
    (notification : EnhancedSlackNotification) (current_time : Z)
    (outcome : HttpOutcome) (st : GateState) : bool * GateState :=
  if webhook_missing then (false, st)
  else
    let '(allowed, st1) :=
      should_send_notification NOTIFICATION_COOLDOWN
        MAX_NOTIFICATIONS_PER_HOUR notification current_time st in
    if negb allowed then (false, st1)
    else
      match outcome with
      | HttpStatus code => if code =? 200 then (true, st1) else (false, st1)
      | HttpRaised => (false, st1)
      end.

(** The loop [for notification in notifications] of a monitoring cycle:
    the [i]-th call of the cycle reads the clock and meets the HTTP outcome
    given by [io i].  It returns the successes in order. *)
Fixpoint send_all (io : nat -> Z * HttpOutcome) (i : nat)
    (notifications : list EnhancedSlackNotification) (st : GateState)
    : list bool * GateState :=
  match notifications with
  | [] => ([], st)
  | notification :: rest =>
      let '(success, st1) :=
        send_enhanced_slack_notification notification (io i).1 (io i).2 st in
      let '(successes, st2) := send_all io (S i) rest st1 in
      (success :: successes, st2)
  end.
End Sender.

(** ** One cycle of [enhanced_continuous_monitoring] *)

(** The state the loop carries from cycle to cycle: the globals
    [previous_status] (None for the empty dict), [status_change_buffer] and
    the gate's, and the local [consecutive_errors]. *)
Record LoopState := {
  loop_previous_status : option Snapshot;
  loop_buffer : gmap string BufferEntry;
  loop_gate : GateState;
  consecutive_errors : Z
}.

(** How the fetch of the current status ends: a snapshot (which always has
    the keys ["details"] and ["components"]), [asyncio.TimeoutError], or
    another exception. *)
Inductive FetchResult :=
| Fetched (fetched_details : gmap string string)
          (fetched_components : gmap string ComponentTree)
| FetchTimedOut
| FetchFailed.

(** What a cycle does besides changing the state: the notifications found,
    their delivery results, whether the system alert was sent, and the sleep
    in seconds before the next cycle. *)
Record CycleReport := {
  found : list EnhancedSlackNotification;
  delivered : list bool;
  system_alert : bool;
  sleep_time : Z
}.

Definition max_consecutive_errors : Z := 5.

Section Loop.
Variable SLACK_WEBHOOK_URL : option string.
Variable MONITORING_INTERVAL : Z.
Variable NOTIFICATION_COOLDOWN : Z.
Variable MAX_NOTIFICATIONS_PER_HOUR : Z.
Variable CHANGE_CONFIRMATION_CYCLES : Z.

(** The adaptive sleep at the end of the loop body. *)
Definition adaptive_sleep (errors : Z) : Z :=
  if 0 <? errors then Z.min (MONITORING_INTERVAL * 2 ^ errors) 1800
  else MONITORING_INTERVAL.

Definition monitoring_cycle (fetch : FetchResult) (now : Z)
    (io : nat -> Z * HttpOutcome) (st : LoopState)
    : LoopState * CycleReport :=
  match fetch with
  | Fetched d c =>
      let current_status := {| details := Some d; components := Some c |} in
      match loop_previous_status st with
      | None =>
          (* initial baseline: sleep the nominal interval and continue *)
          ({| loop_previous_status := Some current_status;
              loop_buffer := loop_buffer st;
              loop_gate := loop_gate st;
              consecutive_errors := 0 |},
           {| found := []; delivered := []; system_alert := false;
              sleep_time := MONITORING_INTERVAL |})
      | Some previous =>
          let '(notifications, buf1) :=
            detect_enhanced_status_changes CHANGE_CONFIRMATION_CYCLES
              current_status previous now (loop_buffer st) in
          let '(successes, gate1) :=
            send_all SLACK_WEBHOOK_URL NOTIFICATION_COOLDOWN
              MAX_NOTIFICATIONS_PER_HOUR io 0 notifications (loop_gate st) in
          ({| loop_previous_status := Some current_status;
              loop_buffer := buf1;
              loop_gate := gate1;
              consecutive_errors := 0 |},
           {| found := notifications; delivered := successes;
              system_alert := false;
              sleep_time := adaptive_sleep 0 |})
      end
  | FetchTimedOut =>
      let errors := consecutive_errors st + 1 in
      ({| loop_previous_status := loop_previous_status st;
          loop_buffer := loop_buffer st;
          loop_gate := loop_gate st;
          consecutive_errors := errors |},
       {| found := []; delivered := []; system_alert := false;
          sleep_time := adaptive_sleep errors |})
  | FetchFailed =>
      let errors := consecutive_errors st + 1 in
      let alert := max_consecutive_errors <=? errors in
      let errors1 := if alert then 0 else errors in
      ({| loop_previous_status := loop_previous_status st;
          loop_buffer := loop_buffer st;
          loop_gate := loop_gate st;
          consecutive_errors := errors1 |},
       {| found := []; delivered := []; system_alert := alert;
          sleep_time := adaptive_sleep errors1 |})
  end.

(** Consecutive cycles: the [k]-th takes its fetch result, its clock and its
    deliveries from the [k]-th input. *)
Fixpoint monitoring_cycles
    (inputs : list (FetchResult * Z * (nat -> Z * HttpOutcome)))
    (st : LoopState) : LoopState * list CycleReport :=
  match inputs with
  | [] => (st, [])
  | (fetch, now, io) :: rest =>
      let '(st1, report) := monitoring_cycle fetch now io st in
      let '(st2, reports) := monitoring_cycles rest st1 in
      (st2, report :: reports)
  end.
End Loop.

(** A fetch that, if it succeeds, reports service [s] with a status that
    normalizes to [cn]. *)
Definition keeps_status (s cn : string) (fetch : FetchResult) : Prop :=
  match fetch with
  | Fetched d _ =>
      exists raw, d !! s = Some raw /\ normalize_status raw = cn
  | _ => True
  end.

(** ** Repeated detection on one pair of snapshots *)

(** The buffer after [k] calls of the detector on the same snapshots. *)
Fixpoint buffer_after (thr : Z) (cur prev : Snapshot) (now : Z) (k : nat)
    (buf : gmap string BufferEntry) : gmap string BufferEntry :=
  match k with
  | O => buf
  | S k' =>
      (detect_enhanced_status_changes thr cur prev now
         (buffer_after thr cur prev now k' buf)).2
  end.

(** ** Components that are not operational *)

(** The own status of a component entry does not normalize to operational;
    an entry that is neither a dict nor a string has no status. *)
Definition component_not_operational (info : CompInfo) : Prop :=
  match info with
  | CompDict fields =>
      normalize_status (default "" (fields !! "status")) <> "operational"
  | CompStr status => normalize_status status <> "operational"
  | CompOther => False
  end.

(** The test as the loops compute it, and what a list-shaped breakdown
    lists: dict entries only, under their "name". *)
Definition component_affected (info : CompInfo) : bool :=
  match info with
  | CompDict fields =>
      negb (String.eqb (normalize_status (default "" (fields !! "status")))
                       "operational")
  | CompStr status => negb (String.eqb (normalize_status status) "operational")
  | CompOther => false
  end.

Definition listed_component (comp : CompInfo) : bool :=
  match comp with
  | CompDict _ => component_affected comp
  | _ => false
  end.

Definition listed_name (comp : CompInfo) : string :=
  match comp with
  | CompDict fields => default "Unknown Component" (fields !! "name")
  | _ => "Unknown Component"
  end.

(** ** Minor changes *)

(** Service [s] shows a minor change towards the normalized status [cn]:
    [cn] is none of operational, degraded and major_outage (so it is
    maintenance, investigating or an opaque value), the service is reported
    with a status that normalizes to [cn], and its previous status
    normalizes differently. *)
Definition minor_change (cur prev : Snapshot) (s cn : string) : Prop :=
  ~ In cn ["operational"; "degraded"; "major_outage"] /\
  exists raw,
    current_raw cur s = Some raw /\ normalize_status raw = cn /\
    normalize_status (previous_raw prev s) <> cn.

(** ** Sample inputs *)

(** A snapshot that reports one service. *)
Definition snapshot_of (svc status : string) : Snapshot :=
  {| details := Some {[ svc := status ]}; components := None |}.

(** The empty dict [{}] as a snapshot. *)
Definition empty_snapshot : Snapshot :=
  {| details := None; components := None |}.

(** The notification the detector builds for a change of [svc]. *)
Definition sample_notification (svc prev cur : string)
    : EnhancedSlackNotification :=
  make_notification (snapshot_of svc cur) 0 svc prev cur.

(** A gate state in which github was notified 10 seconds ago and two
    notifications were sent in the last minute. *)
Definition busy_gate : GateState :=
  {| rate_limiter := ∅;
     notification_history :=
       [ {| hist_service := "aws"; hist_timestamp := Some (10 * usec);
            hist_status_change := "OPERATIONAL -> ERROR" |};
         {| hist_service := "github"; hist_timestamp := Some (50 * usec);
            hist_status_change := "OPERATIONAL -> MINOR ISSUE" |} ];
     last_notification_times :=
       {[ "github" := 50 * usec; "aws" := 10 * usec ]} |}.

(** The empty gate state of a fresh process. *)
Definition fresh_gate : GateState :=
  {| rate_limiter := ∅; notification_history := [];
     last_notification_times := ∅ |}.

(** A pending confirmation that has been seen [n] times. *)
Definition pending_entry (n : Z) (prev cur : string) : BufferEntry :=
  {| count := n; first_seen := 0;
     buf_previous_status := prev; buf_current_status := cur;
     normalized_current := normalize_status cur;
     normalized_previous := normalize_status prev |}.

(** ** The Azure and AWS status trees ([process_azure_data],
       [process_aws_data]) *)

(** A value read by [json.load]; numbers are integers here. *)
#[local] Unset Elimination Schemes.
Inductive Json :=
| JNull
| JBool (b : bool)
| JNum (z : Z)
| JStr (s : string)
| JArr (items : list Json)
| JObj (fields : gmap string Json).
#[local] Set Elimination Schemes.

(** Truthiness of a value. *)
Definition json_truthy (v : Json) : bool :=
  match v with
  | JNull => false
  | JBool b => b
  | JNum z => negb (z =? 0)
  | JStr s => PyStr.truthy s
  | JArr items => match items with [] => false | _ => true end
  | JObj fields => negb (bool_decide (fields = ∅))
  end.

Definition is_dict (v : Json) : bool :=
  match v with JObj _ => true | _ => false end.

(** The items a loop guarded by [if services and isinstance(services, dict)]
    runs over. *)
Definition dict_or_empty (v : Json) : gmap string Json :=
  match v with JObj fields => fields | _ => ∅ end.

(** A counter incremented in a loop over the values of a dict: by [f v] for
    each value, and by one for each value that passes a test. *)
Definition sum_values (f : Json -> Z) (m : gmap string Json) : Z :=
  foldr (fun kv acc => f kv.2 + acc) 0 (map_to_list m).

Definition count_values (p : Json -> bool) (m : gmap string Json) : Z :=
  sum_values (fun v => if p v then 1 else 0) m.

Definition get_azure_status_color (status_obj : Json) : string :=
  match status_obj with
  | JStr s =>
      let status_lower := PyStr.lower s in
      if String.eqb status_lower "available" then "green"
      else if String.eqb status_lower "n/a" then "orange"
      else "red"
  | _ => "red"
  end.

Definition get_aws_status_color (status_str : Json) : string :=
  match status_str with
  | JStr s =>
      if String.eqb (PyStr.lower s) "available" then "green" else "red"
  | _ => "red"
  end.

(** The dict stored for one service. *)
Definition service_entry (status severity : Json) (color : string) : Json :=
  JObj (list_to_map
          [("status", status); ("severity", severity);
           ("status_color", JStr color)]).

Definition azure_service_entry (status_obj : Json) : Json :=
  let color := get_azure_status_color status_obj in
  match status_obj with
  | JObj fields =>
      let status := default (JStr "Unknown") (fields !! "status") in
      let severity := default status (fields !! "severity") in
      service_entry status severity color
  | _ => service_entry status_obj JNull color
  end.

Definition aws_service_entry (status_str : Json) : Json :=
  let color := get_aws_status_color status_str in
  service_entry status_str
    (if negb (String.eqb color "green") then status_str else JNull) color.

Definition region_stats (status_color : string) (green total : Z) : Json :=
  JObj (list_to_map
          [("status_color", JStr status_color);
           ("green_service_count", JNum green);
           ("total_service_count", JNum total)]).

(** The two functions have the same loops; they differ in the geography and
    group keys they skip, in the colour function and in the entry stored. *)
Section StatusTree.
Variable skip_geography : string -> bool.
Variable skip_group : string -> bool.
Variable color_of : Json -> string.
Variable entry_of : Json -> Json.

(** The groups the inner loop processes. *)
Definition kept_groups (groups : gmap string Json) : gmap string Json :=
  filter (fun kv => skip_group kv.1 = false) groups.

Definition region_red_issues (groups : gmap string Json) : Z :=
  sum_values
    (fun services =>
       count_values (fun v => String.eqb (color_of v) "red")
         (dict_or_empty services))
    (kept_groups groups).

Definition region_green_services (groups : gmap string Json) : Z :=
  sum_values
    (fun services =>
       count_values (fun v => String.eqb (color_of v) "green")
         (dict_or_empty services))
    (kept_groups groups).

Definition total_services_in_region (groups : gmap string Json) : Z :=
  sum_values (fun services => Z.of_nat (size (dict_or_empty services)))
    (kept_groups groups).

(** One region: its dict, and whether it counts as a red region.  A region
    that is not a dict gets the empty dict, without statistics. *)
Definition process_region (groups : Json) : Json * bool :=
  match groups with
  | JObj m =>
      let region_status_color := calculate_status_color (region_red_issues m) in
      (JObj (<["_region_stats" :=
                 region_stats region_status_color (region_green_services m)
                   (total_services_in_region m)]>
               ((fun services => JObj (entry_of <$> dict_or_empty services))
                  <$> kept_groups m)),
       String.eqb region_status_color "red")
  | _ => (JObj ∅, false)
  end.

Definition geography_red_regions (regions : gmap string Json) : Z :=
  count_values (fun groups => (process_region groups).2) regions.

(** One geography, whose value is a dict: its entry, and whether it is red. *)
Definition process_geography (regions : gmap string Json) : Json * bool :=
  let geography_status_color :=
    calculate_status_color (geography_red_regions regions) in
  (JObj (list_to_map
           [("regions", JObj ((fun groups => (process_region groups).1)
                                <$> regions));
            ("_geography_stats",
             JObj {[ "status_color" := JStr geography_status_color ]})]),
   String.eqb geography_status_color "red").

Definition kept_geographies (data : gmap string Json) : gmap string Json :=
  filter (fun kv => skip_geography kv.1 = false) data.

Definition total_red_geographies (data : gmap string Json) : Z :=
  count_values
    (fun regions => (process_geography (dict_or_empty regions)).2)
    (kept_geographies data).

(** [None] stands for the exception raised by [.items()] on a value that is
    not a dict. *)
Definition process_status_data (data : Json)
    : option (Json * string * string) :=
  if negb (json_truthy data) then Some (JObj ∅, "green", "OPERATIONAL")
  else
    match data with
    | JObj m =>
        if forallb (fun kv => is_dict kv.2) (map_to_list (kept_geographies m))
        then
          Some (JObj ((fun regions =>
                         (process_geography (dict_or_empty regions)).1)
                        <$> kept_geographies m),
                calculate_status_color (total_red_geographies m),
                calculate_status_label (total_red_geographies m))
        else None
    | _ => None
    end.
End StatusTree.

Definition process_azure_data (azure_data : Json)
    : option (Json * string * string) :=
  process_status_data (fun geography => String.eqb geography "Current Impact")
    (fun group_name => String.eqb group_name "_region_stats")
    get_azure_status_color azure_service_entry azure_data.

Definition process_aws_data (aws_data : Json)
    : option (Json * string * string) :=
  process_status_data (fun _ => false) (fun _ => false)
    get_aws_status_color aws_service_entry aws_data.

(** The entries of [details] and [status_colors] that
    [get_current_status_data] stores for Azure or AWS: the label and colour
    of the processed tree, or "ERROR" and "red" when processing raised. *)
Definition tree_status (processed : option (Json * string * string))
    : string * string :=
  match processed with
  | Some (_, color, label) => (label, color)
  | None => ("ERROR", "red")
  end.

(** * Properties *)

(** ** Strings *)

Section StringFacts.
Import PyStr.

(** The characters of a [string] are the code points below 256. *)
Lemma code_range c : (code c < 256)%N.
Proof. destruct c as [[] [] [] [] [] [] [] []]; reflexivity. Qed.

Lemma lower_char_idem c : lower_char (lower_char c) = lower_char c.
Proof. destruct c as [[] [] [] [] [] [] [] []]; reflexivity. Qed.

Lemma lower_char_space c : is_space c = true -> lower_char c = c.
Proof.
  destruct c as [[] [] [] [] [] [] [] []]; intros H;
    solve [reflexivity | discriminate H].
Qed.

Lemma lower_app s t : lower (s +:+ t) = lower s +:+ lower t.
Proof. induction s as [|c s IH]; simpl; [reflexivity | now rewrite IH]. Qed.

Lemma lower_all_space w : all_space w = true -> lower w = w.
Proof.
  induction w as [|c w IH]; simpl; [reflexivity |].
  intros [Hc Hw]%andb_true_iff.
  now rewrite (lower_char_space _ Hc), IH.
Qed.

Lemma case_variant_lower s t : case_variant s t -> lower s = lower t.
Proof.
  induction 1 as [|a b s t Hab _ IH]; simpl; [reflexivity |].
  rewrite IH. f_equal.
  destruct Hab as [-> | [<- | <-]];
    [reflexivity | symmetry |]; apply lower_char_idem || reflexivity.
Qed.

Lemma lstrip_app_space w y : all_space w = true -> lstrip (w +:+ y) = lstrip y.
Proof.
  induction w as [|c w IH]; simpl; [reflexivity |].
  intros [Hc Hw]%andb_true_iff. rewrite Hc. now apply IH.
Qed.

Lemma rstrip_all_space w : all_space w = true -> rstrip w = EmptyString.
Proof.
  induction w as [|c w IH]; simpl; [reflexivity |].
  intros [Hc Hw]%andb_true_iff. now rewrite (IH Hw), Hc.
Qed.

Lemma rstrip_app_space x w : all_space w = true -> rstrip (x +:+ w) = rstrip x.
Proof.
  intros Hw. induction x as [|c x IH]; simpl.
  - now apply rstrip_all_space.
  - now rewrite IH.
Qed.

Lemma lstrip_all_space w : all_space w = true -> lstrip w = EmptyString.
Proof.
  induction w as [|c w IH]; simpl; [reflexivity |].
  intros [Hc Hw]%andb_true_iff. rewrite Hc. now apply IH.
Qed.

Lemma strip_app_space_r x w : all_space w = true -> strip (x +:+ w) = strip x.
Proof.
  intros Hw. unfold strip. induction x as [|c x IH].
  - change (EmptyString +:+ w) with w.
    now rewrite (lstrip_all_space _ Hw).
  - change (String c x +:+ w) with (String c (x +:+ w)).
    cbn [lstrip]. destruct (is_space c); [exact IH |].
    change (String c (x +:+ w)) with (String c x +:+ w).
    now apply rstrip_app_space.
Qed.

Lemma strip_wrap l x r :
  all_space l = true -> all_space r = true ->
  strip (l +:+ x +:+ r) = strip x.
Proof.
  intros Hl Hr. unfold strip at 1. rewrite (lstrip_app_space _ _ Hl).
  now apply strip_app_space_r.
Qed.

Lemma mem_In x l : mem x l = true <-> In x l.
Proof.
  unfold mem. rewrite existsb_exists. split.
  - intros (y & Hy & ->%String.eqb_eq). exact Hy.
  - intros Hx. exists x. split; [exact Hx | apply String.eqb_refl].
Qed.

(** The key of the lookups of [normalize_status]. *)
Lemma strip_lower_wrap l c r :
  all_space l = true -> all_space r = true ->
  strip (lower (l +:+ c +:+ r)) = strip (lower c).
Proof.
  intros Hl Hr. rewrite !lower_app.
  rewrite (lower_all_space _ Hl), (lower_all_space _ Hr).
  now apply strip_wrap.
Qed.
End StringFacts.

(** ** Normalizer *)

Example normalize_ex1 : normalize_status "Operational " = "operational".
Proof. reflexivity. Qed.
Example normalize_ex2 : normalize_status "  MINOR ISSUE" = "degraded".
Proof. reflexivity. Qed.
Example normalize_ex3 : normalize_status "INCIDENTS (2)" = "incidents (2)".
Proof. reflexivity. Qed.
Example normalize_ex4 : normalize_status " " = "".
Proof. reflexivity. Qed.

Lemma normalize_status_nonempty s :
  s <> EmptyString ->
  normalize_status s =
    normalize_by_table
      [ (operational_aliases, "operational"); (degraded_aliases, "degraded");
        (major_outage_aliases, "major_outage");
        (maintenance_aliases, "maintenance");
        (investigating_aliases, "investigating") ] (Some s).
Proof.
  intros Hs. destruct s as [|c s]; [congruence |].
  unfold normalize_status, normalize_by_table.
  cbn [PyStr.truthy negb List.find fst snd].
  set (t := PyStr.strip (PyStr.lower (String c s))).
  destruct (PyStr.mem t operational_aliases); [reflexivity |].
  destruct (PyStr.mem t degraded_aliases); [reflexivity |].
  destruct (PyStr.mem t major_outage_aliases); [reflexivity |].
  destruct (PyStr.mem t maintenance_aliases); [reflexivity |].
  destruct (PyStr.mem t investigating_aliases); reflexivity.
Qed.

Lemma mem_same_members x l1 l2 :
  (forall y, In y l1 <-> In y l2) -> PyStr.mem x l1 = PyStr.mem x l2.
Proof.
  intros H. destruct (PyStr.mem x l2) eqn:E2.
  - apply mem_In, H, mem_In, E2.
  - destruct (PyStr.mem x l1) eqn:E1; [| reflexivity].
    apply mem_In, H, mem_In in E1. congruence.
Qed.

Lemma mem_not_In x l : ~ In x l -> PyStr.mem x l = false.
Proof.
  intros H. destruct (PyStr.mem x l) eqn:E; [| reflexivity].
  now apply mem_In in E.
Qed.

Lemma degraded_aliases_members y :
  In y (["degraded performance"; "degraded"; "partial_outage";
         "partial outage"; "minor issue"] ++ extra_degraded_aliases)%list
  <-> In y degraded_aliases.
Proof. unfold degraded_aliases, extra_degraded_aliases; simpl; tauto. Qed.

Lemma normalize_status_amended_table s :
  normalize_status s = normalize_by_table amended_alias_table (Some s).
Proof.
  destruct s as [|c s]; [reflexivity |].
  rewrite normalize_status_nonempty by discriminate.
  unfold normalize_by_table, amended_alias_table, spec_alias_table.
  cbn [List.map fst snd String.eqb Ascii.eqb Bool.eqb List.find].
  set (t := PyStr.strip (PyStr.lower (String c s))).
  rewrite (mem_same_members t _ _ degraded_aliases_members).
  unfold operational_aliases, degraded_aliases, major_outage_aliases,
    maintenance_aliases, investigating_aliases.
  repeat match goal with
         | |- context [if ?b then _ else _] => destruct b
         end; reflexivity.
Qed.

Lemma normalize_status_spec_table s :
  ~ In (PyStr.strip (PyStr.lower s)) extra_degraded_aliases ->
  normalize_status s = normalize_by_table spec_alias_table (Some s).
Proof.
  intros Hex. rewrite normalize_status_amended_table.
  destruct s as [|c s]; [reflexivity |].
  unfold normalize_by_table, amended_alias_table, spec_alias_table.
  cbn [List.map fst snd String.eqb Ascii.eqb Bool.eqb List.find].
  set (t := PyStr.strip (PyStr.lower (String c s))) in *.
  assert (E : PyStr.mem t
                (["degraded performance"; "degraded"; "partial_outage";
                  "partial outage"; "minor issue"] ++ extra_degraded_aliases)%list
              = PyStr.mem t
                  ["degraded performance"; "degraded"; "partial_outage";
                   "partial outage"; "minor issue"]).
  { unfold PyStr.mem. rewrite existsb_app.
    fold (PyStr.mem t extra_degraded_aliases).
    rewrite (mem_not_In _ _ Hex). apply orb_false_r. }
  rewrite E.
  unfold operational_aliases, degraded_aliases, major_outage_aliases,
    maintenance_aliases, investigating_aliases.
  repeat match goal with
         | |- context [if ?b then _ else _] => destruct b
         end; reflexivity.
Qed.

Lemma normalize_status_degraded_iff s :
  normalize_status s = "degraded" <->
  s <> EmptyString /\ In (PyStr.strip (PyStr.lower s)) degraded_aliases.
Proof.
  destruct s as [|c s].
  { split; [discriminate | intros [H _]; congruence]. }
  unfold normalize_status. cbn [PyStr.truthy negb].
  set (t := PyStr.strip (PyStr.lower (String c s))).
  split.
  - intros H. split; [discriminate |].
    destruct (PyStr.mem t operational_aliases); [discriminate |].
    destruct (PyStr.mem t degraded_aliases) eqn:E; [now apply mem_In |].
    destruct (PyStr.mem t major_outage_aliases); [discriminate |].
    destruct (PyStr.mem t maintenance_aliases); [discriminate |].
    destruct (PyStr.mem t investigating_aliases); [discriminate |].
    rewrite H. simpl. tauto.
  - intros [_ H]. clearbody t. unfold degraded_aliases in H. simpl in H.
    repeat (destruct H as [<- | H]; [reflexivity |]). destruct H.
Qed.

(** C7, as the code has it: [normalize_status] is normalization by the
    specification's alias table once the [degraded] row also lists
    "degraded_performance" and "minor_issue" (so the aliases of [degraded]
    are exactly those seven); empty and absent input is "unknown"; any other
    input is looked up lower-cased and trimmed and passes through in that
    form when no row lists it.  Away from the two extra aliases the source
    agrees with the specification's table as written. *)
Theorem normalize_alias_table_amended (v : option string) :
  normalize_value v = normalize_by_table amended_alias_table v /\
  (forall s, v = Some s ->
     ~ In (PyStr.strip (PyStr.lower s)) extra_degraded_aliases ->
     normalize_value v = normalize_by_table spec_alias_table v) /\
  (forall s, v = Some s ->
     (normalize_status s = "degraded" <->
      s <> EmptyString /\
      In (PyStr.strip (PyStr.lower s))
         (["degraded performance"; "degraded"; "partial_outage";
           "partial outage"; "minor issue"] ++ extra_degraded_aliases)%list)) /\
  normalize_value None = "unknown" /\
  normalize_value (Some EmptyString) = "unknown".
Proof.
  split; [| split; [| split; [| split; reflexivity]]].
  - destruct v as [s|]; [apply normalize_status_amended_table | reflexivity].
  - intros s -> H. now apply normalize_status_spec_table.
  - intros s _. rewrite normalize_status_degraded_iff.
    now rewrite degraded_aliases_members.
Qed.

(** An input at which the instance of C7's theorem is exercised: the
    pass-through of an unmapped status and an alias of the table. *)
Lemma normalize_alias_table_witness :
  normalize_value (Some "INCIDENTS (2)") = "incidents (2)" /\
  (normalize_status " Minor Issue" = "degraded" <->
   " Minor Issue" <> EmptyString /\
   In (PyStr.strip (PyStr.lower " Minor Issue"))
      (["degraded performance"; "degraded"; "partial_outage";
        "partial outage"; "minor issue"] ++ extra_degraded_aliases)%list).
Proof.
  split.
  - rewrite (proj1 (proj2 (normalize_alias_table_amended
                             (Some "INCIDENTS (2)"))) "INCIDENTS (2)" eq_refl).
    + reflexivity.
    + vm_compute. intros [H | [H | []]]; discriminate H.
  - exact (proj1 (proj2 (proj2 (normalize_alias_table_amended
                                  (Some " Minor Issue"))))
             " Minor Issue" eq_refl).
Defined.

(** C7 as stated fails: "degraded_performance" is not an alias of the
    specification's table, yet it maps to "degraded" and not to its own
    lower-cased trimmed form. *)
Lemma normalize_alias_table_counterexample :
  ~ In "degraded_performance"
       ["degraded performance"; "degraded"; "partial_outage";
        "partial outage"; "minor issue"] /\
  normalize_status "degraded_performance" = "degraded" /\
  normalize_status "degraded_performance"
    <> PyStr.strip (PyStr.lower "degraded_performance") /\
  normalize_status "degraded_performance"
    <> normalize_by_table spec_alias_table (Some "degraded_performance").
Proof.
  repeat split; try (vm_compute; discriminate).
  simpl. intros H. repeat (destruct H as [H | H]; [discriminate H |]).
  destruct H.
Qed.

(** C8, as the code has it, for strings of code points U+0000..U+00FF (the
    strings of this development, where [str.lower] acts on each character by
    itself): [normalize_status] is a function (equal inputs give equal
    results), and two NON-EMPTY such strings that differ only in letter case
    or in leading and trailing whitespace normalize to the same value; in
    particular "Operational " and "OPERATIONAL" do.  Strings with code
    points above U+00FF are not covered. *)
Theorem normalize_case_ws_insensitive :
  (forall s t, s = t -> normalize_status s = normalize_status t) /\
  (forall s t, case_ws_variant s t ->
     s <> EmptyString -> t <> EmptyString ->
     normalize_status s = normalize_status t) /\
  normalize_status "Operational " = normalize_status "OPERATIONAL".
Proof.
  split; [now intros s t -> |]. split; [| reflexivity].
  intros s t (l1 & r1 & l2 & r2 & c1 & c2 & Hl1 & Hr1 & Hl2 & Hr2 & Hc & -> & ->)
         Hs Ht.
  assert (E : PyStr.strip (PyStr.lower (l1 +:+ c1 +:+ r1))
              = PyStr.strip (PyStr.lower (l2 +:+ c2 +:+ r2))).
  { rewrite !strip_lower_wrap by assumption.
    now rewrite (case_variant_lower _ _ Hc). }
  unfold normalize_status.
  destruct (l1 +:+ c1 +:+ r1) eqn:E1; [congruence |].
  destruct (l2 +:+ c2 +:+ r2) eqn:E2; [congruence |].
  cbn [PyStr.truthy negb]. now rewrite E.
Qed.

(** C8's theorem at a concrete pair: mixed case with surrounding blanks
    against the bare upper-case spelling. *)
Lemma normalize_case_ws_witness :
  normalize_status "  Major Outage " = normalize_status "MAJOR OUTAGE".
Proof.
  apply (proj1 (proj2 normalize_case_ws_insensitive)); [| discriminate ..].
  exists "  ", " ", "", "", "Major Outage", "MAJOR OUTAGE".
  repeat split; try reflexivity.
  repeat (constructor;
          [first [left; reflexivity
                 | right; left; reflexivity
                 | right; right; reflexivity] |]).
  constructor.
Defined.

(** C8 as stated fails: the empty string and a single blank differ only in
    surrounding whitespace, but the first is "unknown" and the second is the
    empty opaque status. *)
Lemma normalize_case_ws_counterexample :
  case_ws_variant "" " " /\
  normalize_status "" = "unknown" /\ normalize_status " " = "" /\
  normalize_status "" <> normalize_status " ".
Proof.
  split; [| repeat split; vm_compute; discriminate].
  exists "", "", " ", "", "", "". repeat split; try reflexivity. constructor.
Qed.

(** ** Notification gate *)

Lemma is_recovery_true_iff n :
  is_recovery n = true <->
  normalize_status (current_status n) = "operational" /\
  normalize_status (previous_status n) <> "operational".
Proof.
  unfold is_recovery.
  rewrite andb_true_iff, negb_true_iff, String.eqb_eq, String.eqb_neq.
  reflexivity.
Qed.

(** The three outcomes of the gate, one equation each. *)
Lemma gate_recovery cd mx n now st :
  is_recovery n = true ->
  should_send_notification cd mx n now st =
    (true,
     {| rate_limiter := rate_limiter st;
        notification_history := notification_history st;
        last_notification_times :=
          <[service n := now]> (last_notification_times st) |}).
Proof. intros H. unfold should_send_notification. now rewrite H. Qed.

Lemma gate_denied cd mx n now st :
  (should_send_notification cd mx n now st).1 = false ->
  should_send_notification cd mx n now st = (false, st).
Proof.
  unfold should_send_notification.
  destruct (is_recovery n); [discriminate |].
  destruct (cooldown_active cd (service n) now st); [reflexivity |].
  destruct (mx <=? _); [reflexivity | discriminate].
Qed.

Lemma gate_approved cd mx n now st :
  is_recovery n = false ->
  (should_send_notification cd mx n now st).1 = true ->
  notification_history (should_send_notification cd mx n now st).2 =
    notification_history st ++
      [ {| hist_service := service n;
           hist_timestamp := Some now;
           hist_status_change :=
             previous_status n +:+ " -> " +:+ current_status n |} ].
Proof.
  intros Hr. unfold should_send_notification. rewrite Hr.
  destruct (cooldown_active cd (service n) now st); [discriminate |].
  destruct (mx <=? _); [discriminate | reflexivity].
Qed.

Lemma recent_app now l1 l2 :
  recent_notifications now (l1 ++ l2) =
  recent_notifications now l1 ++ recent_notifications now l2.
Proof. apply List.filter_app. Qed.

Lemma recent_one now svc t change :
  now - t < one_hour ->
  recent_notifications now
    [ {| hist_service := svc; hist_timestamp := Some t;
         hist_status_change := change |} ] =
    [ {| hist_service := svc; hist_timestamp := Some t;
         hist_status_change := change |} ].
Proof.
  intros Hlt. unfold recent_notifications. simpl.
  now rewrite (proj2 (Z.ltb_lt _ _) Hlt).
Qed.

(** C3: a recovery (current status normalizes to operational, previous does
    not) is approved whatever the cooldown table, the history and the two
    limits are, and the service's cooldown timestamp becomes the current
    time. *)
Theorem recovery_always_allowed cd mx n now st :
  normalize_status (current_status n) = "operational" ->
  normalize_status (previous_status n) <> "operational" ->
  (should_send_notification cd mx n now st).1 = true /\
  last_notification_times (should_send_notification cd mx n now st).2
    !! service n = Some now.
Proof.
  intros Hc Hp.
  rewrite gate_recovery by (apply is_recovery_true_iff; auto).
  split; [reflexivity |]. simpl. apply lookup_insert_eq.
Qed.

(** C6: a call of the gate that returns false leaves the whole gate state
    (cooldown table, history, rate limiter) as it was. *)
Theorem gate_false_leaves_state cd mx n now st :
  (should_send_notification cd mx n now st).1 = false ->
  (should_send_notification cd mx n now st).2 = st.
Proof. intros H. now rewrite (gate_denied _ _ _ _ _ H). Qed.

(** C5: a transition that is not a recovery is denied whenever the history
    entries of the trailing hour, of any service, number at least
    [max_per_hour]; and with [max_per_hour = 2], after two approved
    non-recovery transitions, a third non-recovery transition within an hour
    of both is denied. *)
Theorem hourly_cap_denies :
  (forall cd mx n now st,
     is_recovery n = false ->
     mx <= Z.of_nat (length (recent_notifications now
                               (notification_history st))) ->
     (should_send_notification cd mx n now st).1 = false) /\
  (forall cd n1 n2 n3 t1 t2 t3 st0,
     is_recovery n1 = false -> is_recovery n2 = false ->
     is_recovery n3 = false ->
     let r1 := should_send_notification cd 2 n1 t1 st0 in
     let r2 := should_send_notification cd 2 n2 t2 r1.2 in
     r1.1 = true -> r2.1 = true ->
     t3 - t1 < one_hour -> t3 - t2 < one_hour ->
     (should_send_notification cd 2 n3 t3 r2.2).1 = false).
Proof.
  assert (cap : forall cd mx n now st,
     is_recovery n = false ->
     mx <= Z.of_nat (length (recent_notifications now
                               (notification_history st))) ->
     (should_send_notification cd mx n now st).1 = false).
  { intros cd mx n now st Hr Hcap. unfold should_send_notification.
    rewrite Hr. destruct (cooldown_active cd (service n) now st);
      [reflexivity |].
    now rewrite (proj2 (Z.leb_le _ _) Hcap). }
  split; [exact cap |].
  intros cd n1 n2 n3 t1 t2 t3 st0 H1 H2 H3 r1 r2 A1 A2 L1 L2.
  apply cap; [exact H3 |].
  unfold r2. rewrite (gate_approved _ _ _ _ _ H2 A2).
  unfold r1. rewrite (gate_approved _ _ _ _ _ H1 A1).
  rewrite !recent_app.
  rewrite !recent_one by assumption.
  rewrite !length_app. simpl. lia.
Qed.

(** C10: an approved recovery stamps the service's cooldown and appends
    nothing to the history, so the entries counted against the hourly cap at
    any later time are the same as before, and the gate's answer for a later
    notification of another service is the same as without the recovery. *)
Theorem recovery_spends_no_budget cd mx n now st :
  normalize_status (current_status n) = "operational" ->
  normalize_status (previous_status n) <> "operational" ->
  let r := should_send_notification cd mx n now st in
  r.1 = true /\
  last_notification_times r.2 = <[service n := now]> (last_notification_times st) /\
  notification_history r.2 = notification_history st /\
  (forall later,
     recent_notifications later (notification_history r.2) =
     recent_notifications later (notification_history st)) /\
  (forall n' later,
     service n' <> service n ->
     (should_send_notification cd mx n' later r.2).1 =
     (should_send_notification cd mx n' later st).1).
Proof.
  intros Hc Hp r. unfold r.
  rewrite gate_recovery by (apply is_recovery_true_iff; auto).
  repeat split.
  intros n' later Hne. unfold should_send_notification, cooldown_active.
  simpl. rewrite lookup_insert_ne by congruence.
  destruct (is_recovery n'); [reflexivity |].
  destruct (last_notification_times st !! service n') as [last|];
    [destruct (later - last <? cd * usec); [reflexivity |] |];
    destruct (mx <=? _); reflexivity.
Qed.

(** C3's theorem at a recovery of github while its cooldown is running and
    the hourly cap of one is already used up. *)
Lemma recovery_always_allowed_witness :
  (should_send_notification 300 1
     (sample_notification "github" "major_outage" "OPERATIONAL")
     (60 * usec) busy_gate).1 = true /\
  last_notification_times
    (should_send_notification 300 1
       (sample_notification "github" "major_outage" "OPERATIONAL")
       (60 * usec) busy_gate).2 !! "github" = Some (60 * usec).
Proof.
  apply (recovery_always_allowed 300 1
           (sample_notification "github" "major_outage" "OPERATIONAL")
           (60 * usec) busy_gate).
  - reflexivity.
  - vm_compute. discriminate.
Defined.

(** C6's theorem at an outage of github reported while its cooldown runs. *)
Lemma gate_false_leaves_state_witness :
  (should_send_notification 300 20
     (sample_notification "github" "OPERATIONAL" "major_outage")
     (60 * usec) busy_gate).2 = busy_gate.
Proof.
  apply (gate_false_leaves_state 300 20
           (sample_notification "github" "OPERATIONAL" "major_outage")
           (60 * usec) busy_gate).
  reflexivity.
Defined.

(** C5's theorem at a capped history, and at three outages of github 400
    seconds apart with a cooldown of 300 seconds and a cap of two. *)
Lemma hourly_cap_denies_witness :
  (should_send_notification 300 2
     (sample_notification "jira" "OPERATIONAL" "MINOR ISSUE")
     (60 * usec) busy_gate).1 = false /\
  (let n := sample_notification "github" "OPERATIONAL" "major_outage" in
   let r1 := should_send_notification 300 2 n 0 fresh_gate in
   let r2 := should_send_notification 300 2 n (400 * usec) r1.2 in
   (should_send_notification 300 2 n (800 * usec) r2.2).1 = false).
Proof.
  split.
  - apply (proj1 hourly_cap_denies 300 2
             (sample_notification "jira" "OPERATIONAL" "MINOR ISSUE")
             (60 * usec) busy_gate).
    + reflexivity.
    + vm_compute. discriminate.
  - apply (proj2 hourly_cap_denies 300
             (sample_notification "github" "OPERATIONAL" "major_outage")
             (sample_notification "github" "OPERATIONAL" "major_outage")
             (sample_notification "github" "OPERATIONAL" "major_outage")
             0 (400 * usec) (800 * usec) fresh_gate);
      reflexivity.
Defined.

(** C10's theorem at a recovery of github approved from the busy state. *)
Lemma recovery_spends_no_budget_witness :
  notification_history
    (should_send_notification 300 20
       (sample_notification "github" "major_outage" "OPERATIONAL")
       (60 * usec) busy_gate).2 = notification_history busy_gate.
Proof.
  apply (recovery_spends_no_budget 300 20
           (sample_notification "github" "major_outage" "OPERATIONAL")
           (60 * usec) busy_gate).
  - reflexivity.
  - vm_compute. discriminate.
Defined.

(** ** Change detector: one service at a time *)

(** Buffer keys of different monitored services never coincide. *)
Lemma buffer_key_service_inj s s' a b :
  In s MONITORED_SERVICES -> In s' MONITORED_SERVICES ->
  buffer_key s a = buffer_key s' b -> s = s'.
Proof.
  unfold MONITORED_SERVICES, buffer_key. simpl.
  intros Hs Hs' E.
  repeat (destruct Hs as [<- | Hs]; [| try contradiction]);
    repeat (destruct Hs' as [<- | Hs']; [| try contradiction]);
    solve [reflexivity | simpl in E; discriminate E].
Qed.

Lemma buffer_key_inj s a b : buffer_key s a = buffer_key s b -> a = b.
Proof.
  unfold buffer_key. induction s as [|c s IH]; simpl; intros E.
  - now injection E.
  - injection E as E. now apply IH.
Qed.

Section DetectorFacts.
Variables (thr : Z) (cur prev : Snapshot) (now : Z).

Local Abbreviation step := (detect_service thr cur prev now).
Local Abbreviation loop := (detect_loop thr cur prev now).
Local Abbreviation note s raw :=
  (make_notification cur now s (previous_raw prev s) raw).

Lemma step_absent s buf : current_raw cur s = None -> step s buf = (None, buf).
Proof. intros H. unfold detect_service. now rewrite H. Qed.

(** The four routes of an iteration for a reported service. *)
Lemma step_skipped s raw buf :
  current_raw cur s = Some raw ->
  is_skipped (normalize_status raw) (normalize_status (previous_raw prev s))
    = true ->
  step s buf = (None, buf).
Proof.
  intros H Hs. unfold detect_service. rewrite H. cbv zeta.
  unfold is_skipped in Hs.
  destruct (_ && negb _); [reflexivity |]. simpl in Hs. now rewrite Hs.
Qed.

Lemma step_unskipped s raw buf :
  current_raw cur s = Some raw ->
  is_skipped (normalize_status raw) (normalize_status (previous_raw prev s))
    = false ->
  step s buf =
    let key := buffer_key s (normalize_status raw) in
    if is_immediate (normalize_status raw)
         (normalize_status (previous_raw prev s))
    then (Some (note s raw), buf)
    else match buf !! key with
         | None =>
             let buf1 := <[key := new_entry now (previous_raw prev s) raw]> buf in
             if 1 <? thr then (None, buf1)
             else (Some (note s raw), delete key buf1)
         | Some entry =>
             let buf1 := <[key := bump_count entry]> buf in
             if count entry + 1 <? thr then (None, buf1)
             else (Some (note s raw), delete key buf1)
         end.
Proof.
  intros H Hs. unfold detect_service. rewrite H. cbv zeta.
  unfold is_skipped in Hs. apply orb_false_iff in Hs as [-> ->].
  destruct (is_immediate _ _); [reflexivity |].
  unfold confirm_buffered.
  destruct (buf !! _) as [entry|]; rewrite lookup_insert_eq;
    cbn [count new_entry bump_count].
  - reflexivity.
  - destruct (1 <? thr); reflexivity.
Qed.
End DetectorFacts.

Section DetectorLoop.
Variables (thr : Z) (cur prev : Snapshot) (now : Z).

Local Abbreviation step := (detect_service thr cur prev now).
Local Abbreviation loop := (detect_loop thr cur prev now).

(** Case analysis on the route of an iteration. *)
Ltac step_routes s buf :=
  destruct (current_raw cur s) as [?raw|] eqn:?Hraw;
  [ destruct (is_skipped (normalize_status raw)
                (normalize_status (previous_raw prev s))) eqn:?Hskip;
    [ rewrite (step_skipped thr cur prev now s raw buf Hraw Hskip)
    | rewrite (step_unskipped thr cur prev now s raw buf Hraw Hskip);
      cbv zeta;
      destruct (is_immediate (normalize_status raw)
                  (normalize_status (previous_raw prev s))) eqn:?Himm;
      [ | destruct (buf !! buffer_key s (normalize_status raw))
            as [?entry|] eqn:?Hlook;
          [ destruct (count entry + 1 <? thr) eqn:?Hcnt
          | destruct (1 <? thr) eqn:?Hthr ] ] ]
  | rewrite (step_absent thr cur prev now s buf Hraw) ].

(** An iteration only touches the buffer at a key of its own service. *)
Lemma step_frame s buf k :
  (forall c, k <> buffer_key s c) -> (step s buf).2 !! k = buf !! k.
Proof.
  intros Hk. step_routes s buf; simpl; try reflexivity.
  all: specialize (Hk (normalize_status raw)).
  all: rewrite ?lookup_delete_ne, ?lookup_insert_ne by congruence.
  all: reflexivity.
Qed.

(** A notification appended by an iteration is for that service. *)
Lemma step_service s buf n : (step s buf).1 = Some n -> service n = s.
Proof.
  step_routes s buf; simpl; intros E; try discriminate E.
  all: injection E as <-; reflexivity.
Qed.

(** An iteration reads the buffer only at the keys of its service. *)
Lemma step_ext s b1 b2 :
  (forall c, b1 !! buffer_key s c = b2 !! buffer_key s c) ->
  (step s b1).1 = (step s b2).1 /\
  (forall c, (step s b1).2 !! buffer_key s c
             = (step s b2).2 !! buffer_key s c).
Proof.
  intros H.
  destruct (current_raw cur s) as [raw|] eqn:Hraw;
    [| rewrite !step_absent by assumption; split; [reflexivity | exact H]].
  destruct (is_skipped (normalize_status raw)
              (normalize_status (previous_raw prev s))) eqn:Hskip;
    [rewrite !(step_skipped _ _ _ _ s raw) by assumption;
     split; [reflexivity | exact H] |].
  rewrite !(step_unskipped _ _ _ _ s raw) by assumption. cbv zeta.
  destruct (is_immediate _ _); [split; [reflexivity | exact H] |].
  rewrite (H (normalize_status raw)).
  destruct (b2 !! buffer_key s (normalize_status raw)) as [entry|].
  - destruct (count entry + 1 <? thr); simpl; (split; [reflexivity |]);
      intros c; rewrite ?lookup_delete, ?lookup_insert;
      repeat case_decide; auto.
  - destruct (1 <? thr); simpl; (split; [reflexivity |]);
      intros c; rewrite ?lookup_delete, ?lookup_insert;
      repeat case_decide; auto.
Qed.

(** The notifications of [s] and the buffer at the keys of [s] are not
    affected by iterations for other monitored services. *)
Lemma loop_others s l :
  In s MONITORED_SERVICES -> ~ In s l ->
  (forall s', In s' l -> In s' MONITORED_SERVICES) ->
  forall buf,
    for_service s (loop l buf).1 = [] /\
    (forall c, (loop l buf).2 !! buffer_key s c = buf !! buffer_key s c).
Proof.
  intros Hs. induction l as [|s' l IH]; intros Hn Hl buf; [now split |].
  cbn [detect_loop].
  destruct (step s' buf) as [emitted buf1] eqn:E1.
  destruct (loop l buf1) as [ns buf2] eqn:E2.
  assert (Hne : s' <> s) by (intros ->; apply Hn; now left).
  destruct (IH (fun H => Hn (or_intror H))
               (fun x H => Hl x (or_intror H)) buf1) as [IH1 IH2].
  rewrite E2 in IH1, IH2. simpl in IH1, IH2.
  assert (Hfr : forall c, buf1 !! buffer_key s c = buf !! buffer_key s c).
  { intros c. change buf1 with (emitted, buf1).2. rewrite <- E1.
    apply step_frame. intros c' Hk.
    apply buffer_key_service_inj in Hk; [congruence | exact Hs |].
    apply Hl. now left. }
  split.
  - simpl. destruct emitted as [n|]; [| exact IH1].
    unfold for_service in *. simpl.
    rewrite (step_service s' buf n) by now rewrite E1.
    destruct (String.eqb_spec s' s); [congruence | exact IH1].
  - intros c. simpl. now rewrite IH2, Hfr.
Qed.

(** The loop seen from one service: its notifications and its part of the
    buffer are those of its own iteration run on the initial buffer. *)
Lemma loop_focus s l :
  In s MONITORED_SERVICES -> NoDup l -> In s l ->
  (forall s', In s' l -> In s' MONITORED_SERVICES) ->
  forall buf,
    for_service s (loop l buf).1 = option_list (step s buf).1 /\
    (forall c, (loop l buf).2 !! buffer_key s c
               = (step s buf).2 !! buffer_key s c).
Proof.
  intros Hs. induction l as [|s' l IH]; intros Hnd Hin Hl buf;
    [destruct Hin |].
  apply NoDup_cons in Hnd as [Hnot Hnd].
  cbn [detect_loop].
  destruct (step s' buf) as [emitted buf1] eqn:E1.
  destruct (loop l buf1) as [ns buf2] eqn:E2.
  destruct (String.eqb_spec s' s) as [-> | Hne].
  - (* the iteration of [s] itself, then only other services *)
    destruct (loop_others s l Hs) with (buf := buf1) as [T1 T2].
    { intros H. apply Hnot. now apply list_elem_of_In. }
    { intros x H. apply Hl. now right. }
    rewrite E2 in T1, T2. simpl in T1, T2. rewrite E1. simpl. split.
    + destruct emitted as [n|]; simpl; [| exact T1].
      unfold for_service in *. simpl.
      rewrite (step_service s buf n) by now rewrite E1.
      now rewrite String.eqb_refl, T1.
    + exact T2.
  - (* another service first *)
    destruct Hin as [-> | Hin]; [congruence |].
    assert (Hfr : forall c, buf1 !! buffer_key s c = buf !! buffer_key s c).
    { intros c. change buf1 with (emitted, buf1).2. rewrite <- E1.
      apply step_frame. intros c' Hk.
      apply buffer_key_service_inj in Hk; [congruence | exact Hs |].
      apply Hl. now left. }
    destruct (IH Hnd Hin (fun x H => Hl x (or_intror H)) buf1) as [IH1 IH2].
    rewrite E2 in IH1, IH2. simpl in IH1, IH2.
    destruct (step_ext s buf1 buf Hfr) as [X1 X2].
    simpl. split.
    + rewrite <- X1, <- IH1. destruct emitted as [n|]; [| reflexivity].
      unfold for_service. simpl.
      rewrite (step_service s' buf n) by now rewrite E1.
      destruct (String.eqb_spec s' s); [congruence | reflexivity].
    + intros c. now rewrite IH2, X2.
Qed.
End DetectorLoop.

Lemma MONITORED_SERVICES_NoDup : NoDup MONITORED_SERVICES.
Proof.
  unfold MONITORED_SERVICES.
  repeat (apply NoDup_cons; split;
          [rewrite list_elem_of_In; simpl; intros H;
           repeat (destruct H as [H | H]; [discriminate H |]); destruct H |]).
  apply NoDup_nil. trivial.
Qed.

(** The detector seen from one monitored service. *)
Lemma detect_focus thr cur prev now s buf :
  In s MONITORED_SERVICES ->
  for_service s (detect_enhanced_status_changes thr cur prev now buf).1
    = option_list (detect_service thr cur prev now s buf).1 /\
  (forall c,
     (detect_enhanced_status_changes thr cur prev now buf).2 !! buffer_key s c
     = (detect_service thr cur prev now s buf).2 !! buffer_key s c).
Proof.
  intros Hs. unfold detect_enhanced_status_changes.
  apply loop_focus; auto using MONITORED_SERVICES_NoDup.
Qed.

(** ** Change detector: the claims *)

Lemma monitored_has_priority s :
  In s MONITORED_SERVICES -> exists p, SERVICE_PRIORITIES !! s = Some p.
Proof.
  unfold MONITORED_SERVICES. simpl. intros H.
  repeat (destruct H as [<- | H]; [eexists; reflexivity |]). destruct H.
Qed.

Lemma outage_route raw pn :
  normalize_status raw = "major_outage" -> pn <> "major_outage" ->
  is_skipped (normalize_status raw) pn = false /\
  is_immediate (normalize_status raw) pn = true.
Proof.
  intros -> Hp. unfold is_skipped, is_immediate. split; [| reflexivity].
  rewrite (proj2 (String.eqb_neq _ _)) by congruence.
  simpl. apply andb_false_r.
Qed.

Lemma minor_route cn pn :
  ~ In cn ["operational"; "degraded"; "major_outage"] -> pn <> cn ->
  is_skipped cn pn = false /\ is_immediate cn pn = false.
Proof.
  simpl. intros Hc Hp. unfold is_skipped, is_immediate, PyStr.mem. simpl.
  rewrite (proj2 (String.eqb_neq cn pn)) by congruence.
  rewrite (proj2 (String.eqb_neq cn "operational")) by intuition congruence.
  rewrite (proj2 (String.eqb_neq cn "degraded")) by intuition congruence.
  rewrite (proj2 (String.eqb_neq cn "major_outage")) by intuition congruence.
  now rewrite !andb_false_r.
Qed.

(** C1: when a monitored service's current status normalizes to major_outage
    and its previous status normalizes differently, the detector emits, in
    that very call, exactly the notification built from the two snapshots for
    that service: the same for every confirmation threshold and every
    pending-confirmation buffer, whose entries for the service are left as
    they were.  Its severity is "critical" and its priority the service's
    entry of the priority table. *)
Theorem outage_emitted_immediately thr cur prev now buf s raw :
  In s MONITORED_SERVICES ->
  current_raw cur s = Some raw ->
  normalize_status raw = "major_outage" ->
  normalize_status (previous_raw prev s) <> "major_outage" ->
  let n := make_notification cur now s (previous_raw prev s) raw in
  for_service s (detect_enhanced_status_changes thr cur prev now buf).1 = [n] /\
  severity n = "critical" /\
  (exists p, SERVICE_PRIORITIES !! s = Some p /\ priority n = p) /\
  (forall c,
     (detect_enhanced_status_changes thr cur prev now buf).2 !! buffer_key s c
     = buf !! buffer_key s c).
Proof.
  intros Hs Hraw Hc Hp n.
  destruct (detect_focus thr cur prev now s buf Hs) as [F1 F2].
  destruct (outage_route raw _ Hc Hp) as [Hskip Himm].
  rewrite (step_unskipped _ _ _ _ s raw buf Hraw Hskip) in F1, F2.
  cbv zeta in F1, F2. rewrite Himm in F1, F2.
  split; [exact F1 |]. split.
  { unfold n, make_notification. cbn [severity]. now rewrite Hc. }
  split; [| exact F2].
  destruct (monitored_has_priority s Hs) as [p Hp'].
  exists p. split; [exact Hp' |].
  unfold n, make_notification. cbn [priority]. now rewrite Hp'.
Qed.

(** C1's theorem at the scenario of the specification: github goes from
    operational to major_outage, with a threshold of 5 and an empty buffer. *)
Lemma outage_emitted_immediately_witness :
  for_service "github"
    (detect_enhanced_status_changes 5 (snapshot_of "github" "major_outage")
       (snapshot_of "github" "operational") 0 ∅).1
  = [ make_notification (snapshot_of "github" "major_outage") 0 "github"
        "operational" "major_outage" ] /\
  severity (make_notification (snapshot_of "github" "major_outage") 0 "github"
              "operational" "major_outage") = "critical" /\
  priority (make_notification (snapshot_of "github" "major_outage") 0 "github"
              "operational" "major_outage") = "high".
Proof.
  destruct (outage_emitted_immediately 5 (snapshot_of "github" "major_outage")
              (snapshot_of "github" "operational") 0 ∅ "github" "major_outage")
    as (H1 & H2 & _ & _).
  - simpl. tauto.
  - reflexivity.
  - reflexivity.
  - vm_compute. discriminate.
  - split; [exact H1 |]. split; [exact H2 | reflexivity].
Defined.

(** C9: a monitored service whose previous status normalizes to unknown,
    which is the case when the service or the whole details mapping is
    missing from the previous snapshot, and whose current status normalizes
    to operational yields no notification; with an empty previous snapshot
    and github operational the detector returns the empty list and leaves
    the buffer alone. *)
Theorem initial_operational_not_reported :
  (forall thr cur prev now buf s raw,
     In s MONITORED_SERVICES ->
     current_raw cur s = Some raw ->
     normalize_status raw = "operational" ->
     normalize_status (previous_raw prev s) = "unknown" ->
     for_service s (detect_enhanced_status_changes thr cur prev now buf).1
       = []) /\
  (forall prev s,
     default ∅ (details prev) !! s = None ->
     normalize_status (previous_raw prev s) = "unknown") /\
  (forall s, normalize_status (previous_raw empty_snapshot s) = "unknown") /\
  (forall thr now buf,
     detect_enhanced_status_changes thr (snapshot_of "github" "operational")
       empty_snapshot now buf = ([], buf)).
Proof.
  split; [| split; [| split]].
  - intros thr cur prev now buf s raw Hs Hraw Hc Hp.
    destruct (detect_focus thr cur prev now s buf Hs) as [F1 _].
    rewrite F1, (step_skipped _ _ _ _ s raw buf Hraw); [reflexivity |].
    unfold is_skipped. rewrite Hc, Hp. reflexivity.
  - intros prev s H. unfold previous_raw. now rewrite H.
  - reflexivity.
  - intros thr now buf. reflexivity.
Qed.

(** C9's theorem at okta, first seen as "OPERATIONAL" after a snapshot that
    only reported github. *)
Lemma initial_operational_witness :
  for_service "okta"
    (detect_enhanced_status_changes 1 (snapshot_of "okta" "OPERATIONAL")
       (snapshot_of "github" "OPERATIONAL") 7 ∅).1 = [].
Proof.
  apply (proj1 initial_operational_not_reported 1
           (snapshot_of "okta" "OPERATIONAL")
           (snapshot_of "github" "OPERATIONAL") 7 ∅ "okta" "OPERATIONAL").
  - simpl. tauto.
  - reflexivity.
  - reflexivity.
  - apply (proj1 (proj2 initial_operational_not_reported)). reflexivity.
Defined.

(** The iteration of a minor change: a fresh key, and a pending one. *)
Lemma step_minor_fresh thr cur prev now s cn buf :
  minor_change cur prev s cn -> buf !! buffer_key s cn = None ->
  exists raw,
    current_raw cur s = Some raw /\ normalize_status raw = cn /\
    detect_service thr cur prev now s buf =
      if 1 <? thr
      then (None,
            <[buffer_key s cn := new_entry now (previous_raw prev s) raw]> buf)
      else (Some (make_notification cur now s (previous_raw prev s) raw),
            delete (buffer_key s cn)
              (<[buffer_key s cn := new_entry now (previous_raw prev s) raw]>
                 buf)).
Proof.
  intros (Hc & raw & Hraw & Hn & Hp) Hb. exists raw. repeat split; trivial.
  destruct (minor_route cn _ Hc Hp) as [Hskip Himm]. rewrite <- Hn in *.
  rewrite (step_unskipped _ _ _ _ s raw buf Hraw Hskip). cbv zeta.
  now rewrite Himm, Hb.
Qed.

Lemma step_minor_pending thr cur prev now s cn buf entry :
  minor_change cur prev s cn -> buf !! buffer_key s cn = Some entry ->
  exists raw,
    current_raw cur s = Some raw /\ normalize_status raw = cn /\
    detect_service thr cur prev now s buf =
      if count entry + 1 <? thr
      then (None, <[buffer_key s cn := bump_count entry]> buf)
      else (Some (make_notification cur now s (previous_raw prev s) raw),
            delete (buffer_key s cn)
              (<[buffer_key s cn := bump_count entry]> buf)).
Proof.
  intros (Hc & raw & Hraw & Hn & Hp) Hb. exists raw. repeat split; trivial.
  destruct (minor_route cn _ Hc Hp) as [Hskip Himm]. rewrite <- Hn in *.
  rewrite (step_unskipped _ _ _ _ s raw buf Hraw Hskip). cbv zeta.
  now rewrite Himm, Hb.
Qed.

(** C2: with a confirmation threshold of 3, a minor change of a monitored
    service towards the same normalized status, seen in three consecutive
    calls starting from a buffer without an entry for it, is not emitted by
    the first call, which creates the entry with count 1, nor by the second,
    which raises the count to 2, and is emitted by the third, which removes
    the entry. *)
Theorem debounce_three_cycles
    s cn cur1 prev1 now1 cur2 prev2 now2 cur3 prev3 now3 buf0 :
  In s MONITORED_SERVICES ->
  minor_change cur1 prev1 s cn ->
  minor_change cur2 prev2 s cn ->
  minor_change cur3 prev3 s cn ->
  buf0 !! buffer_key s cn = None ->
  let r1 := detect_enhanced_status_changes 3 cur1 prev1 now1 buf0 in
  let r2 := detect_enhanced_status_changes 3 cur2 prev2 now2 r1.2 in
  let r3 := detect_enhanced_status_changes 3 cur3 prev3 now3 r2.2 in
  for_service s r1.1 = [] /\
  count <$> r1.2 !! buffer_key s cn = Some 1 /\
  for_service s r2.1 = [] /\
  count <$> r2.2 !! buffer_key s cn = Some 2 /\
  (exists raw,
     current_raw cur3 s = Some raw /\
     for_service s r3.1 =
       [make_notification cur3 now3 s (previous_raw prev3 s) raw]) /\
  r3.2 !! buffer_key s cn = None.
Proof.
  intros Hs M1 M2 M3 Hb r1 r2 r3.
  (* first call *)
  destruct (detect_focus 3 cur1 prev1 now1 s buf0 Hs) as [A1 A2].
  destruct (step_minor_fresh 3 cur1 prev1 now1 s cn buf0 M1 Hb)
    as (raw1 & _ & _ & S1).
  rewrite S1 in A1, A2. change (1 <? 3) with true in A1, A2.
  cbn [fst snd option_list] in A1, A2.
  specialize (A2 cn). rewrite lookup_insert_eq in A2.
  fold r1 in A1, A2.
  (* second call *)
  destruct (detect_focus 3 cur2 prev2 now2 s r1.2 Hs) as [B1 B2].
  destruct (step_minor_pending 3 cur2 prev2 now2 s cn r1.2 _ M2 A2)
    as (raw2 & _ & _ & S2).
  rewrite S2 in B1, B2.
  change (count (new_entry now1 (previous_raw prev1 s) raw1) + 1 <? 3)
    with true in B1, B2.
  cbn [fst snd option_list] in B1, B2.
  specialize (B2 cn). rewrite lookup_insert_eq in B2.
  fold r2 in B1, B2.
  (* third call *)
  destruct (detect_focus 3 cur3 prev3 now3 s r2.2 Hs) as [C1 C2].
  destruct (step_minor_pending 3 cur3 prev3 now3 s cn r2.2 _ M3 B2)
    as (raw3 & Hraw3 & _ & S3).
  rewrite S3 in C1, C2.
  change (count (bump_count (new_entry now1 (previous_raw prev1 s) raw1)) + 1
          <? 3) with false in C1, C2.
  cbn [fst snd option_list] in C1, C2.
  specialize (C2 cn). rewrite lookup_delete_eq in C2.
  fold r3 in C1, C2.
  split; [exact A1 |]. split; [now rewrite A2 |].
  split; [exact B1 |]. split; [now rewrite B2 |].
  split; [now exists raw3 | exact C2].
Qed.

(** C4, as the code has it: for a confirmation threshold greater than 1, if
    a call of the detector consumes the pending entry of a monitored service
    (present before the call, gone after it), that call emits the service's
    notification, and a second call with the same pair of snapshots emits
    nothing for the service: it only starts a new pending entry at count 1. *)
Theorem no_duplicate_after_confirmation thr cur prev now1 now2 buf0 s raw :
  1 < thr ->
  In s MONITORED_SERVICES ->
  current_raw cur s = Some raw ->
  let key := buffer_key s (normalize_status raw) in
  let r1 := detect_enhanced_status_changes thr cur prev now1 buf0 in
  let r2 := detect_enhanced_status_changes thr cur prev now2 r1.2 in
  is_Some (buf0 !! key) ->
  r1.2 !! key = None ->
  for_service s r1.1 = [make_notification cur now1 s (previous_raw prev s) raw]
  /\ for_service s r2.1 = []
  /\ count <$> r2.2 !! key = Some 1.
Proof.
  intros Hthr Hs Hraw key r1 r2 [entry Hentry] Hgone.
  destruct (detect_focus thr cur prev now1 s buf0 Hs) as [A1 A2].
  destruct (detect_focus thr cur prev now2 s r1.2 Hs) as [B1 B2].
  fold r1 in A1, A2. fold r2 in B1, B2.
  specialize (A2 (normalize_status raw)). fold key in A2.
  specialize (B2 (normalize_status raw)). fold key in B2.
  rewrite Hgone in A2.
  destruct (is_skipped (normalize_status raw)
              (normalize_status (previous_raw prev s))) eqn:Hskip.
  { rewrite (step_skipped _ _ _ _ s raw buf0 Hraw Hskip) in A2.
    simpl in A2. congruence. }
  rewrite (step_unskipped _ _ _ _ s raw buf0 Hraw Hskip) in A1, A2.
  rewrite (step_unskipped _ _ _ _ s raw r1.2 Hraw Hskip) in B1, B2.
  cbv zeta in A1, A2, B1, B2. fold key in A1, A2, B1, B2.
  destruct (is_immediate _ _); [simpl in A2; congruence |].
  rewrite Hentry in A1, A2. rewrite Hgone in B1, B2.
  rewrite (proj2 (Z.ltb_lt 1 thr) Hthr) in B1, B2.
  destruct (count entry + 1 <? thr).
  { simpl in A2. rewrite lookup_insert_eq in A2. discriminate A2. }
  simpl in A1, B1, B2. rewrite lookup_insert_eq in B2.
  split; [exact A1 |]. split; [exact B1 |]. now rewrite B2.
Qed.

Lemma jira_maintenance_minor :
  minor_change (snapshot_of "jira" "Scheduled Maintenance")
    (snapshot_of "jira" "OPERATIONAL") "jira" "maintenance".
Proof.
  split.
  - simpl. intros H. repeat (destruct H as [H | H]; [discriminate H |]).
    destruct H.
  - exists "Scheduled Maintenance".
    split; [reflexivity |]. split; [reflexivity |].
    vm_compute. discriminate.
Qed.

(** C2's theorem at jira entering scheduled maintenance, seen in three calls
    that start from the empty buffer. *)
Lemma debounce_three_cycles_witness :
  let cur := snapshot_of "jira" "Scheduled Maintenance" in
  let prev := snapshot_of "jira" "OPERATIONAL" in
  let r1 := detect_enhanced_status_changes 3 cur prev 0 ∅ in
  let r2 := detect_enhanced_status_changes 3 cur prev 1 r1.2 in
  let r3 := detect_enhanced_status_changes 3 cur prev 2 r2.2 in
  for_service "jira" r1.1 = [] /\
  count <$> r1.2 !! "jira_maintenance" = Some 1 /\
  for_service "jira" r2.1 = [] /\
  count <$> r2.2 !! "jira_maintenance" = Some 2 /\
  for_service "jira" r3.1 <> [] /\
  r3.2 !! "jira_maintenance" = None.
Proof.
  intros cur prev r1 r2 r3.
  destruct (debounce_three_cycles "jira" "maintenance"
              cur prev 0 cur prev 1 cur prev 2 ∅)
    as (H1 & H2 & H3 & H4 & (raw & _ & H5) & H6).
  - simpl. tauto.
  - exact jira_maintenance_minor.
  - exact jira_maintenance_minor.
  - exact jira_maintenance_minor.
  - reflexivity.
  - split; [exact H1 |]. split; [exact H2 |]. split; [exact H3 |].
    split; [exact H4 |]. split; [| exact H6].
    fold r1 r2 r3 in H5. rewrite H5. discriminate.
Defined.

(** C4's theorem at jira in scheduled maintenance with a threshold of 2 and
    an entry already counted once. *)
Lemma no_duplicate_after_confirmation_witness :
  let cur := snapshot_of "jira" "Scheduled Maintenance" in
  let prev := snapshot_of "jira" "OPERATIONAL" in
  let buf0 : gmap string BufferEntry :=
    {[ "jira_maintenance" :=
         pending_entry 1 "OPERATIONAL" "Scheduled Maintenance" ]} in
  let r1 := detect_enhanced_status_changes 2 cur prev 0 buf0 in
  let r2 := detect_enhanced_status_changes 2 cur prev 1 r1.2 in
  for_service "jira" r1.1 =
    [make_notification cur 0 "jira" "OPERATIONAL" "Scheduled Maintenance"] /\
  for_service "jira" r2.1 = [].
Proof.
  intros cur prev buf0 r1 r2.
  destruct (no_duplicate_after_confirmation 2 cur prev 0 1 buf0 "jira"
              "Scheduled Maintenance") as (H1 & H2 & _).
  - lia.
  - simpl. tauto.
  - reflexivity.
  - eexists. reflexivity.
  - reflexivity.
  - split; [exact H1 | exact H2].
Defined.

(** C4 as stated fails for a threshold of 1: the first call consumes the
    pending entry and emits, and the second call with the same snapshots
    emits the same change again. *)
Lemma no_duplicate_counterexample :
  let cur := snapshot_of "jira" "Scheduled Maintenance" in
  let prev := snapshot_of "jira" "OPERATIONAL" in
  let buf0 : gmap string BufferEntry :=
    {[ "jira_maintenance" :=
         pending_entry 1 "OPERATIONAL" "Scheduled Maintenance" ]} in
  let r1 := detect_enhanced_status_changes 1 cur prev 0 buf0 in
  let r2 := detect_enhanced_status_changes 1 cur prev 0 r1.2 in
  is_Some (buf0 !! "jira_maintenance") /\
  r1.2 !! "jira_maintenance" = None /\
  for_service "jira" r1.1 =
    [make_notification cur 0 "jira" "OPERATIONAL" "Scheduled Maintenance"] /\
  for_service "jira" r2.1 =
    [make_notification cur 0 "jira" "OPERATIONAL" "Scheduled Maintenance"].
Proof.
  cbv zeta. split; [eexists; reflexivity |].
  split; [reflexivity |]. split; reflexivity.
Qed.

(** * Further properties of the detector *)

Section DetectorMore.
Variables (thr : Z) (cur prev : Snapshot) (now : Z).

Local Abbreviation step := (detect_service thr cur prev now).
Local Abbreviation loop := (detect_loop thr cur prev now).
Local Abbreviation note s raw :=
  (make_notification cur now s (previous_raw prev s) raw).

Ltac routes s buf :=
  destruct (current_raw cur s) as [?raw|] eqn:?Hraw;
  [ destruct (is_skipped (normalize_status raw)
                (normalize_status (previous_raw prev s))) eqn:?Hskip;
    [ rewrite (step_skipped thr cur prev now s raw buf Hraw Hskip)
    | rewrite (step_unskipped thr cur prev now s raw buf Hraw Hskip);
      cbv zeta;
      destruct (is_immediate (normalize_status raw)
                  (normalize_status (previous_raw prev s))) eqn:?Himm;
      [ | destruct (buf !! buffer_key s (normalize_status raw))
            as [?entry|] eqn:?Hlook;
          [ destruct (count entry + 1 <? thr) eqn:?Hcnt
          | destruct (1 <? thr) eqn:?Hthr ] ] ]
  | rewrite (step_absent thr cur prev now s buf Hraw) ].

(** What an iteration that emits has seen. *)
Lemma step_emits s buf n :
  (step s buf).1 = Some n ->
  exists raw,
    current_raw cur s = Some raw /\ n = note s raw /\
    is_skipped (normalize_status raw)
      (normalize_status (previous_raw prev s)) = false.
Proof.
  routes s buf; simpl; intros E; try discriminate E.
  all: injection E as <-; exists raw; auto.
Qed.

(** An iteration writes the buffer at one key only. *)
Lemma step_frame_key s buf k :
  (forall raw, current_raw cur s = Some raw ->
               k <> buffer_key s (normalize_status raw)) ->
  (step s buf).2 !! k = buf !! k.
Proof.
  intros Hk. routes s buf; simpl; try reflexivity.
  all: specialize (Hk raw eq_refl).
  all: rewrite ?lookup_delete_ne, ?lookup_insert_ne by congruence.
  all: reflexivity.
Qed.

(** An iteration keeps every pending count within [1, thr). *)
Lemma step_counts s buf :
  map_Forall (fun _ e => 1 <= count e < thr) buf ->
  map_Forall (fun _ e => 1 <= count e < thr) (step s buf).2.
Proof.
  intros Hb. routes s buf; cbn [fst snd]; trivial.
  - apply map_Forall_insert_2; [| exact Hb].
    apply Hb in Hlook. apply Z.ltb_lt in Hcnt. cbn [count bump_count]. lia.
  - rewrite delete_insert_eq. now apply map_Forall_delete.
  - apply map_Forall_insert_2; [| exact Hb].
    apply Z.ltb_lt in Hthr. cbn [count new_entry]. lia.
  - rewrite delete_insert_eq. now apply map_Forall_delete.
Qed.
End DetectorMore.

Section DetectorWhole.
Variables (thr : Z) (cur prev : Snapshot) (now : Z).

Local Abbreviation step := (detect_service thr cur prev now).
Local Abbreviation loop := (detect_loop thr cur prev now).

Lemma loop_cons s l buf :
  loop (s :: l) buf =
    ((option_list (step s buf).1 ++ (loop l (step s buf).2).1)%list,
     (loop l (step s buf).2).2).
Proof.
  cbn [detect_loop]. destruct (step s buf) as [[n|] buf1]; cbn [fst snd];
    destruct (loop l buf1) as [ns buf2]; reflexivity.
Qed.

Lemma loop_emitted l : forall buf n,
  In n (loop l buf).1 ->
  exists s buf', In s l /\ (step s buf').1 = Some n.
Proof.
  induction l as [|s l IH]; intros buf n; [intros [] |].
  rewrite loop_cons. cbn [fst]. rewrite in_app_iff. intros [H | H].
  - exists s, buf. split; [now left |].
    destruct (step s buf).1 as [m|]; simpl in H; [| destruct H].
    destruct H as [<- | []]. reflexivity.
  - destruct (IH _ _ H) as (s' & buf' & Hin & E).
    exists s', buf'. split; [now right | exact E].
Qed.

Lemma loop_sublist l : forall buf, sublist (service <$> (loop l buf).1) l.
Proof.
  induction l as [|s l IH]; intros buf; [constructor |].
  rewrite loop_cons. cbn [fst]. rewrite fmap_app.
  destruct (step s buf).1 as [n|] eqn:E; simpl.
  - rewrite (step_service thr cur prev now s buf n E).
    apply sublist_skip, IH.
  - apply sublist_cons, IH.
Qed.

Lemma loop_frame_key l k : forall buf,
  (forall s raw, In s l -> current_raw cur s = Some raw ->
                 k <> buffer_key s (normalize_status raw)) ->
  (loop l buf).2 !! k = buf !! k.
Proof.
  induction l as [|s l IH]; intros buf Hk; [reflexivity |].
  rewrite loop_cons. cbn [snd]. rewrite IH.
  - apply step_frame_key. intros raw. apply Hk. now left.
  - intros s' raw Hin. apply Hk. now right.
Qed.

Lemma loop_counts l : forall buf,
  map_Forall (fun _ e => 1 <= count e < thr) buf ->
  map_Forall (fun _ e => 1 <= count e < thr) (loop l buf).2.
Proof.
  induction l as [|s l IH]; intros buf Hb; [exact Hb |].
  rewrite loop_cons. cbn [snd]. apply IH, step_counts, Hb.
Qed.
End DetectorWhole.

Lemma is_skipped_false_iff cn pn :
  is_skipped cn pn = false <->
  (cn <> pn \/ pn = "unknown") /\ ~ (pn = "unknown" /\ cn = "operational").
Proof.
  unfold is_skipped.
  rewrite orb_false_iff, !andb_false_iff, negb_false_iff,
    !String.eqb_neq, String.eqb_eq.
  split; intros [H1 H2]; (split; [tauto |]).
  - tauto.
  - destruct (String.eqb_spec pn "unknown"); [| now left].
    destruct (String.eqb_spec cn "operational"); [tauto | now right].
Qed.

(** X1: every notification the detector returns is for a monitored service
    that the current snapshot reports, carries that service's previous and
    current raw statuses, is the notification built from them, and records a
    real change: the normalized statuses differ or the previous one is
    unknown, and it is not the first sight of an operational service. *)
Theorem detect_emits_only_real_changes thr cur prev now buf n :
  In n (detect_enhanced_status_changes thr cur prev now buf).1 ->
  In (service n) MONITORED_SERVICES /\
  current_raw cur (service n) = Some (current_status n) /\
  previous_status n = previous_raw prev (service n) /\
  n = make_notification cur now (service n) (previous_status n)
        (current_status n) /\
  (normalize_status (current_status n) <> normalize_status (previous_status n)
   \/ normalize_status (previous_status n) = "unknown") /\
  ~ (normalize_status (previous_status n) = "unknown" /\
     normalize_status (current_status n) = "operational").
Proof.
  intros H. apply loop_emitted in H as (s & buf' & Hs & E).
  apply step_emits in E as (raw & Hraw & -> & Hskip).
  apply is_skipped_false_iff in Hskip. cbn [service current_status
    previous_status make_notification]. tauto.
Qed.

(** X2: the services of the returned notifications form a sub-sequence of
    the registry: registry order, and at most one notification per service. *)
Theorem detect_services_in_order thr cur prev now buf :
  sublist (service <$> (detect_enhanced_status_changes thr cur prev now buf).1)
    MONITORED_SERVICES /\
  NoDup (service <$> (detect_enhanced_status_changes thr cur prev now buf).1) /\
  (length (detect_enhanced_status_changes thr cur prev now buf).1 <= 10)%nat.
Proof.
  pose proof (loop_sublist thr cur prev now MONITORED_SERVICES buf) as H.
  fold (detect_enhanced_status_changes thr cur prev now buf) in H.
  split; [exact H |]. split.
  - eapply sublist_NoDup; [apply MONITORED_SERVICES_NoDup | exact H].
  - apply sublist_length in H. now rewrite length_fmap in H.
Qed.

(** X3: a monitored service that the current snapshot does not report, or
    whose status normalizes as before to a status other than unknown, gets no
    notification, and its pending confirmations are left as they were. *)
Theorem unchanged_status_is_silent thr cur prev now buf s :
  In s MONITORED_SERVICES ->
  current_raw cur s = None \/
  (exists raw, current_raw cur s = Some raw /\
     normalize_status raw = normalize_status (previous_raw prev s) /\
     normalize_status (previous_raw prev s) <> "unknown") ->
  for_service s (detect_enhanced_status_changes thr cur prev now buf).1 = [] /\
  (forall c,
     (detect_enhanced_status_changes thr cur prev now buf).2 !! buffer_key s c
     = buf !! buffer_key s c).
Proof.
  intros Hs H.
  destruct (detect_focus thr cur prev now s buf Hs) as [F1 F2].
  assert (E : detect_service thr cur prev now s buf = (None, buf)).
  { destruct H as [H | (raw & Hraw & He & Hu)].
    - now apply step_absent.
    - apply (step_skipped _ _ _ _ s raw); [exact Hraw |].
      unfold is_skipped. rewrite He, String.eqb_refl.
      now rewrite (proj2 (String.eqb_neq _ _) Hu). }
  rewrite E in F1, F2. now split.
Qed.

(** X3 at github reported as "Foo" after "foo ", with a pending entry. *)
Lemma unchanged_status_is_silent_witness :
  for_service "github"
    (detect_enhanced_status_changes 1 (snapshot_of "github" "Foo")
       (snapshot_of "github" "foo ") 0
       {[ "github_foo" := pending_entry 1 "OPERATIONAL" "foo" ]}).1 = [].
Proof.
  apply (unchanged_status_is_silent 1 (snapshot_of "github" "Foo")
           (snapshot_of "github" "foo ") 0
           {[ "github_foo" := pending_entry 1 "OPERATIONAL" "foo" ]} "github").
  - simpl. tauto.
  - right. exists "Foo". split; [reflexivity |]. split; [reflexivity |].
    vm_compute. discriminate.
Defined.

(** X1 at the outage of github: the one notification returned. *)
Lemma detect_emits_only_real_changes_witness :
  current_raw (snapshot_of "github" "major_outage") "github"
    = Some "major_outage" /\
  previous_raw (snapshot_of "github" "operational") "github" = "operational".
Proof.
  destruct (detect_emits_only_real_changes 5
              (snapshot_of "github" "major_outage")
              (snapshot_of "github" "operational") 0 ∅
              (make_notification (snapshot_of "github" "major_outage") 0
                 "github" "operational" "major_outage"))
    as (_ & H1 & H2 & _).
  - left. reflexivity.
  - split; [exact H1 | symmetry; exact H2].
Defined.

(** X4: the detector writes the buffer only at the key made of a monitored,
    reported service and its current normalized status.  Every other entry,
    in particular a pending confirmation whose status is no longer observed,
    stays in the buffer unchanged. *)
Theorem stale_entries_are_kept thr cur prev now buf k :
  (forall s raw,
     In s MONITORED_SERVICES -> current_raw cur s = Some raw ->
     k <> buffer_key s (normalize_status raw)) ->
  (detect_enhanced_status_changes thr cur prev now buf).2 !! k = buf !! k.
Proof. apply loop_frame_key. Qed.

(** X4 at a pending maintenance of jira that is operational again. *)
Lemma stale_entries_are_kept_witness :
  (detect_enhanced_status_changes 3 (snapshot_of "jira" "OPERATIONAL")
     (snapshot_of "jira" "OPERATIONAL") 0
     {[ "jira_maintenance" :=
          pending_entry 2 "OPERATIONAL" "Scheduled Maintenance" ]}).2
    !! "jira_maintenance"
  = Some (pending_entry 2 "OPERATIONAL" "Scheduled Maintenance").
Proof.
  rewrite (stale_entries_are_kept 3 (snapshot_of "jira" "OPERATIONAL")
             (snapshot_of "jira" "OPERATIONAL") 0 _ "jira_maintenance").
  - reflexivity.
  - intros s raw Hs Hraw. simpl in Hs.
    repeat (destruct Hs as [<- | Hs];
            [vm_compute in Hraw;
             first [discriminate Hraw
                   | injection Hraw as <-; vm_compute; discriminate] |]).
    destruct Hs.
Defined.

(** X5: besides an outage, two more changes are sent in the call that sees
    them, whatever the threshold and the buffer: a status that normalizes to
    degraded when it did not before, with severity "warning", and a return to
    operational from major_outage or degraded, with severity "resolved". *)
Theorem degradation_and_recovery_immediate thr cur prev now buf s raw :
  In s MONITORED_SERVICES ->
  current_raw cur s = Some raw ->
  (normalize_status raw = "degraded" /\
   normalize_status (previous_raw prev s) <> "degraded") \/
  (normalize_status raw = "operational" /\
   In (normalize_status (previous_raw prev s)) ["major_outage"; "degraded"]) ->
  let n := make_notification cur now s (previous_raw prev s) raw in
  for_service s (detect_enhanced_status_changes thr cur prev now buf).1 = [n] /\
  severity n =
    (if String.eqb (normalize_status raw) "degraded"
     then "warning" else "resolved") /\
  (forall c,
     (detect_enhanced_status_changes thr cur prev now buf).2 !! buffer_key s c
     = buf !! buffer_key s c).
Proof.
  intros Hs Hraw H n.
  destruct (detect_focus thr cur prev now s buf Hs) as [F1 F2].
  assert (R : is_skipped (normalize_status raw)
                (normalize_status (previous_raw prev s)) = false /\
              is_immediate (normalize_status raw)
                (normalize_status (previous_raw prev s)) = true /\
              severity_of (normalize_status raw) =
                (if String.eqb (normalize_status raw) "degraded"
                 then "warning" else "resolved")).
  { destruct H as [[-> Hp] | [-> Hp]].
    - unfold is_skipped, is_immediate.
      rewrite (proj2 (String.eqb_neq _ _)) by congruence.
      repeat split. simpl. apply andb_false_r.
    - simpl in Hp. destruct Hp as [<- | [<- | []]]; repeat split. }
  destruct R as (Hskip & Himm & Hsev).
  rewrite (step_unskipped _ _ _ _ s raw buf Hraw Hskip) in F1, F2.
  cbv zeta in F1, F2. rewrite Himm in F1, F2.
  split; [exact F1 |]. split; [exact Hsev | exact F2].
Qed.

(** X5 at aws recovering from "ERROR" with a threshold of 4. *)
Lemma degradation_and_recovery_witness :
  for_service "aws"
    (detect_enhanced_status_changes 4 (snapshot_of "aws" "OPERATIONAL")
       (snapshot_of "aws" "ERROR") 0 ∅).1
  = [make_notification (snapshot_of "aws" "OPERATIONAL") 0 "aws" "ERROR"
       "OPERATIONAL"].
Proof.
  apply (degradation_and_recovery_immediate 4
           (snapshot_of "aws" "OPERATIONAL") (snapshot_of "aws" "ERROR") 0 ∅
           "aws" "OPERATIONAL").
  - simpl. tauto.
  - reflexivity.
  - right. split; [reflexivity | left; reflexivity].
Defined.

(** X6: a return to operational from a status other than major_outage and
    degraded (maintenance, investigating, an opaque status) is not a
    recovery for the detector: it is buffered like any minor change, so with
    a threshold above 1 and no pending entry the call emits nothing and
    leaves an entry with count 1. *)
Theorem recovery_from_minor_is_debounced thr cur prev now buf s raw :
  1 < thr ->
  In s MONITORED_SERVICES ->
  current_raw cur s = Some raw ->
  normalize_status raw = "operational" ->
  ~ In (normalize_status (previous_raw prev s))
       ["operational"; "unknown"; "major_outage"; "degraded"] ->
  buf !! buffer_key s "operational" = None ->
  for_service s (detect_enhanced_status_changes thr cur prev now buf).1 = [] /\
  count <$> (detect_enhanced_status_changes thr cur prev now buf).2
              !! buffer_key s "operational" = Some 1.
Proof.
  intros Hthr Hs Hraw Hc Hp Hb.
  destruct (detect_focus thr cur prev now s buf Hs) as [F1 F2].
  specialize (F2 "operational").
  assert (R : is_skipped "operational"
                (normalize_status (previous_raw prev s)) = false /\
              is_immediate "operational"
                (normalize_status (previous_raw prev s)) = false).
  { set (pn := normalize_status (previous_raw prev s)) in *. clearbody pn.
    cbn [In] in Hp. unfold is_skipped, is_immediate, PyStr.mem.
    cbn [existsb].
    destruct (String.eqb_spec "operational" pn); [intuition congruence |].
    destruct (String.eqb_spec pn "unknown"); [intuition congruence |].
    destruct (String.eqb_spec pn "major_outage"); [intuition congruence |].
    destruct (String.eqb_spec pn "degraded"); [intuition congruence |].
    split; reflexivity. }
  destruct R as [Hskip Himm]. rewrite <- Hc in Hskip, Himm.
  rewrite (step_unskipped _ _ _ _ s raw buf Hraw Hskip) in F1, F2.
  cbv zeta in F1, F2. rewrite Himm, Hc, Hb in F1, F2.
  rewrite (proj2 (Z.ltb_lt 1 thr) Hthr) in F1, F2.
  simpl in F1, F2. rewrite lookup_insert_eq in F2.
  split; [exact F1 |]. now rewrite F2.
Qed.

(** X6 at jira back from scheduled maintenance with a threshold of 2. *)
Lemma recovery_from_minor_witness :
  for_service "jira"
    (detect_enhanced_status_changes 2 (snapshot_of "jira" "OPERATIONAL")
       (snapshot_of "jira" "Scheduled Maintenance") 0 ∅).1 = [].
Proof.
  apply (recovery_from_minor_is_debounced 2 (snapshot_of "jira" "OPERATIONAL")
           (snapshot_of "jira" "Scheduled Maintenance") 0 ∅ "jira"
           "OPERATIONAL").
  - lia.
  - simpl. tauto.
  - reflexivity.
  - reflexivity.
  - vm_compute. intros H.
    repeat (destruct H as [H | H]; [discriminate H |]). destruct H.
  - reflexivity.
Defined.

(** X7: the detector keeps every pending count at least 1 and below the
    threshold: an entry starts at 1, grows by one per observation and is
    removed once it reaches the threshold.  With a threshold of 1 or less
    this means that a buffer that is empty stays empty. *)
Theorem pending_counts_stay_below_threshold thr cur prev now buf :
  map_Forall (fun _ e => 1 <= count e < thr) buf ->
  map_Forall (fun _ e => 1 <= count e < thr)
    (detect_enhanced_status_changes thr cur prev now buf).2 /\
  (thr <= 1 ->
   (detect_enhanced_status_changes thr cur prev now buf).2 = ∅).
Proof.
  intros Hb.
  pose proof (loop_counts thr cur prev now MONITORED_SERVICES buf Hb) as H.
  fold (detect_enhanced_status_changes thr cur prev now buf) in H.
  split; [exact H |]. intros Hthr.
  apply map_empty. intros k.
  destruct (_ !! k) as [e|] eqn:E; [| reflexivity].
  apply H in E. simpl in E. lia.
Qed.

(** X7 at a maintenance of jira counted once, seen again with threshold 3. *)
Lemma pending_counts_witness :
  map_Forall (fun _ e => 1 <= count e < 3)
    (detect_enhanced_status_changes 3
       (snapshot_of "jira" "Scheduled Maintenance")
       (snapshot_of "jira" "OPERATIONAL") 0
       {[ "jira_maintenance" :=
            pending_entry 1 "OPERATIONAL" "Scheduled Maintenance" ]}).2.
Proof.
  apply (pending_counts_stay_below_threshold 3
           (snapshot_of "jira" "Scheduled Maintenance")
           (snapshot_of "jira" "OPERATIONAL") 0
           {[ "jira_maintenance" :=
                pending_entry 1 "OPERATIONAL" "Scheduled Maintenance" ]}).
  apply map_Forall_singleton. simpl. lia.
Defined.

(** X8: with a threshold of 1 or less (the default is 1) nothing is
    debounced: every reported change of a monitored service that passes the
    two skip tests is returned by the call that sees it, provided no entry
    is pending under its key, and no entry is left behind. *)
Theorem threshold_one_emits_every_change thr cur prev now buf s raw :
  thr <= 1 ->
  In s MONITORED_SERVICES ->
  current_raw cur s = Some raw ->
  is_skipped (normalize_status raw)
    (normalize_status (previous_raw prev s)) = false ->
  buf !! buffer_key s (normalize_status raw) = None ->
  for_service s (detect_enhanced_status_changes thr cur prev now buf).1
    = [make_notification cur now s (previous_raw prev s) raw] /\
  (detect_enhanced_status_changes thr cur prev now buf).2
    !! buffer_key s (normalize_status raw) = None.
Proof.
  intros Hthr Hs Hraw Hskip Hb.
  destruct (detect_focus thr cur prev now s buf Hs) as [F1 F2].
  specialize (F2 (normalize_status raw)).
  rewrite (step_unskipped _ _ _ _ s raw buf Hraw Hskip) in F1, F2.
  cbv zeta in F1, F2. rewrite Hb in F1, F2.
  rewrite (proj2 (Z.ltb_ge 1 thr) Hthr) in F1, F2.
  destruct (is_immediate _ _); simpl in F1, F2.
  - split; [exact F1 | now rewrite F2].
  - rewrite lookup_delete_eq in F2. now split.
Qed.

(** X8 at okta reporting incidents for the first time, threshold 1. *)
Lemma threshold_one_witness :
  for_service "okta"
    (detect_enhanced_status_changes 1 (snapshot_of "okta" "INCIDENTS (2)")
       (snapshot_of "okta" "OPERATIONAL") 0 ∅).1
  = [make_notification (snapshot_of "okta" "INCIDENTS (2)") 0 "okta"
       "OPERATIONAL" "INCIDENTS (2)"].
Proof.
  apply (threshold_one_emits_every_change 1
           (snapshot_of "okta" "INCIDENTS (2)")
           (snapshot_of "okta" "OPERATIONAL") 0 ∅ "okta" "INCIDENTS (2)").
  - lia.
  - simpl. tauto.
  - reflexivity.
  - reflexivity.
  - reflexivity.
Defined.

(** One call on a minor change, in terms of the count pending before it
    (0 when there is no entry). *)
Lemma detect_minor thr cur prev now buf s cn :
  In s MONITORED_SERVICES -> minor_change cur prev s cn ->
  let pending := default 0 (count <$> buf !! buffer_key s cn) in
  let r := detect_enhanced_status_changes thr cur prev now buf in
  if pending + 1 <? thr
  then for_service s r.1 = [] /\
       count <$> r.2 !! buffer_key s cn = Some (pending + 1)
  else (exists raw,
          current_raw cur s = Some raw /\
          for_service s r.1 =
            [make_notification cur now s (previous_raw prev s) raw]) /\
       r.2 !! buffer_key s cn = None.
Proof.
  intros Hs M pending r.
  destruct (detect_focus thr cur prev now s buf Hs) as [F1 F2].
  specialize (F2 cn). fold r in F1, F2. subst pending.
  destruct (buf !! buffer_key s cn) as [entry|] eqn:E.
  - change (default 0 (count <$> Some entry)) with (count entry).
    destruct (step_minor_pending thr cur prev now s cn buf entry M E)
      as (raw & Hraw & _ & Hst). rewrite Hst in F1, F2.
    destruct (count entry + 1 <? thr); cbn [fst snd option_list] in F1, F2.
    + rewrite lookup_insert_eq in F2. split; [exact F1 | now rewrite F2].
    + rewrite lookup_delete_eq in F2. split; [now exists raw | exact F2].
  - change (default 0 (count <$> @None BufferEntry) + 1) with 1.
    destruct (step_minor_fresh thr cur prev now s cn buf M E)
      as (raw & Hraw & _ & Hst). rewrite Hst in F1, F2.
    destruct (1 <? thr); cbn [fst snd option_list] in F1, F2.
    + rewrite lookup_insert_eq in F2. split; [exact F1 | now rewrite F2].
    + rewrite lookup_delete_eq in F2. split; [now exists raw | exact F2].
Qed.

Lemma buffer_after_count thr cur prev now buf s cn :
  In s MONITORED_SERVICES -> minor_change cur prev s cn ->
  buf !! buffer_key s cn = None ->
  forall k : nat,
    Z.of_nat k < thr ->
    default 0 (count <$> buffer_after thr cur prev now k buf
                           !! buffer_key s cn) = Z.of_nat k.
Proof.
  intros Hs M Hb. induction k as [|k IH]; intros Hk.
  - simpl. now rewrite Hb.
  - cbn [buffer_after].
    pose proof (detect_minor thr cur prev now
                  (buffer_after thr cur prev now k buf) s cn Hs M) as D.
    cbv zeta in D. rewrite IH in D by lia.
    rewrite (proj2 (Z.ltb_lt (Z.of_nat k + 1) thr)) in D by lia.
    destruct D as [_ D]. rewrite D. simpl. lia.
Qed.

(** X9: debouncing for any threshold of at least 1.  When the detector is
    called again and again on snapshots showing a minor change of a
    monitored service, starting without a pending entry, the calls before
    the threshold-th return nothing for the service and leave the entry's
    count at the number of calls made; the threshold-th call returns the
    notification and removes the entry. *)
Theorem debounce_any_threshold thr cur prev now buf s cn :
  1 <= thr ->
  In s MONITORED_SERVICES ->
  minor_change cur prev s cn ->
  buf !! buffer_key s cn = None ->
  (forall k : nat,
     Z.of_nat k < thr - 1 ->
     for_service s
       (detect_enhanced_status_changes thr cur prev now
          (buffer_after thr cur prev now k buf)).1 = [] /\
     count <$> buffer_after thr cur prev now (S k) buf !! buffer_key s cn
       = Some (Z.of_nat (S k))) /\
  (forall k : nat,
     Z.of_nat k = thr - 1 ->
     (exists raw,
        current_raw cur s = Some raw /\
        for_service s
          (detect_enhanced_status_changes thr cur prev now
             (buffer_after thr cur prev now k buf)).1 =
          [make_notification cur now s (previous_raw prev s) raw]) /\
     buffer_after thr cur prev now (S k) buf !! buffer_key s cn = None).
Proof.
  intros Hthr Hs M Hb. split; intros k Hk.
  - pose proof (detect_minor thr cur prev now
                  (buffer_after thr cur prev now k buf) s cn Hs M) as D.
    cbv zeta in D.
    rewrite (buffer_after_count thr cur prev now buf s cn Hs M Hb k) in D
      by lia.
    rewrite (proj2 (Z.ltb_lt (Z.of_nat k + 1) thr)) in D by lia.
    destruct D as [D1 D2]. split; [exact D1 |].
    cbn [buffer_after]. rewrite D2. f_equal. lia.
  - pose proof (detect_minor thr cur prev now
                  (buffer_after thr cur prev now k buf) s cn Hs M) as D.
    cbv zeta in D.
    rewrite (buffer_after_count thr cur prev now buf s cn Hs M Hb k) in D
      by lia.
    rewrite (proj2 (Z.ltb_ge (Z.of_nat k + 1) thr)) in D by lia.
    exact D.
Qed.

(** X9 at jira in scheduled maintenance with a threshold of 4: the third
    call is silent and the fourth emits. *)
Lemma debounce_any_threshold_witness :
  let cur := snapshot_of "jira" "Scheduled Maintenance" in
  let prev := snapshot_of "jira" "OPERATIONAL" in
  for_service "jira"
    (detect_enhanced_status_changes 4 cur prev 0
       (buffer_after 4 cur prev 0 2 ∅)).1 = [] /\
  buffer_after 4 cur prev 0 4 ∅ !! "jira_maintenance" = None.
Proof.
  intros cur prev.
  destruct (debounce_any_threshold 4 cur prev 0 ∅ "jira" "maintenance")
    as [H1 H2].
  - lia.
  - simpl. tauto.
  - exact jira_maintenance_minor.
  - reflexivity.
  - split.
    + apply (H1 2%nat). reflexivity.
    + apply (H2 3%nat). reflexivity.
Defined.

Lemma component_affected_iff info :
  component_affected info = true <-> component_not_operational info.
Proof.
  destruct info as [fields | status |]; simpl.
  - now rewrite negb_true_iff, String.eqb_neq.
  - now rewrite negb_true_iff, String.eqb_neq.
  - split; [discriminate | tauto].
Qed.

Lemma affected_dict_in_order items :
  List.concat (List.map affected_of_dict_item items) =
  fst <$> List.filter (fun item => component_affected item.2) items.
Proof.
  induction items as [|[key info] items IH]; [reflexivity |].
  cbn [List.map List.concat List.filter snd]. rewrite IH.
  unfold affected_of_dict_item. cbn [fst snd].
  destruct info as [fields | status |]; cbn [component_affected].
  - destruct (negb _); reflexivity.
  - destruct (negb _); reflexivity.
  - reflexivity.
Qed.

Lemma affected_list_in_order items :
  List.concat (List.map affected_of_list_item items) =
  listed_name <$> List.filter listed_component items.
Proof.
  induction items as [|comp items IH]; [reflexivity |].
  cbn [List.map List.concat List.filter]. rewrite IH.
  destruct comp as [fields | status |];
    cbn [affected_of_list_item listed_component component_affected];
    [| reflexivity ..].
  destruct (negb _); reflexivity.
Qed.

(** X10: the affected components of a notification are the first five, in
    the order of the breakdown, of the service's components that are not
    operational.  For a dict-shaped breakdown they are the keys of the
    entries whose status does not normalize to operational (an entry
    without a "status" field counts, an entry that is neither dict nor
    string does not); for a list-shaped one, the "name" fields of such dict
    entries, or "Unknown Component"; a service without a breakdown, or with
    one of another type, lists none. *)
Theorem components_affected_listed cur now s praw raw :
  let n := make_notification cur now s praw raw in
  (length (components_affected n) <= 5)%nat /\
  (forall items,
     default ∅ (components cur) !! s = Some (TreeDict items) ->
     components_affected n =
       take 5 (fst <$> List.filter
                         (fun item => component_affected item.2) items)) /\
  (forall items,
     default ∅ (components cur) !! s = Some (TreeList items) ->
     components_affected n =
       take 5 (listed_name <$> List.filter listed_component items)) /\
  (default ∅ (components cur) !! s = None \/
   default ∅ (components cur) !! s = Some TreeOther ->
   components_affected n = []) /\
  (forall info,
     component_affected info = true <-> component_not_operational info).
Proof.
  cbv zeta. cbn [components_affected make_notification].
  split; [rewrite length_take; lia |].
  unfold affected_components. split; [| split; [| split]].
  - intros items ->. now rewrite affected_dict_in_order.
  - intros items ->. now rewrite affected_list_in_order.
  - intros [-> | ->]; reflexivity.
  - apply component_affected_iff.
Qed.

(** X10 at a github breakdown with an operational entry between an entry
    that has lost its status and a degraded one. *)
Lemma components_affected_witness :
  components_affected
    (make_notification
       {| details := Some {[ "github" := "MINOR ISSUE" ]};
          components :=
            Some {[ "github" :=
                      TreeDict [("Pages", CompDict ∅);
                                ("Actions",
                                 CompDict {[ "status" := "Operational" ]});
                                ("Issues", CompStr "Degraded")] ]} |}
       0 "github" "OPERATIONAL" "MINOR ISSUE")
  = ["Pages"; "Issues"].
Proof.
  rewrite (proj1 (proj2 (components_affected_listed
             {| details := Some {[ "github" := "MINOR ISSUE" ]};
                components :=
                  Some {[ "github" :=
                            TreeDict [("Pages", CompDict ∅);
                                      ("Actions",
                                       CompDict {[ "status" := "Operational" ]});
                                      ("Issues", CompStr "Degraded")] ]} |}
             0 "github" "OPERATIONAL" "MINOR ISSUE"))
            [("Pages", CompDict ∅);
             ("Actions", CompDict {[ "status" := "Operational" ]});
             ("Issues", CompStr "Degraded")]).
  - reflexivity.
  - reflexivity.
Defined.

(** * Further properties of the notification gate *)

Lemma gate_approved_stamp cd mx n now st :
  (should_send_notification cd mx n now st).1 = true ->
  last_notification_times (should_send_notification cd mx n now st).2
    = <[service n := now]> (last_notification_times st).
Proof.
  unfold should_send_notification.
  destruct (is_recovery n); [reflexivity |].
  destruct (cooldown_active cd (service n) now st); [discriminate |].
  destruct (mx <=? _); [discriminate | reflexivity].
Qed.

(** X11: the cooldown works across calls.  For a cooldown between 0 and
    2^33 seconds, after any approved notification of a service at time [t],
    recovery or not, a notification of the same service that is not a
    recovery is denied at every time less than the cooldown after [t]. *)
Theorem cooldown_after_approval cd mx n t st n' t' :
  0 <= cd <= exact_cooldown_bound ->
  (should_send_notification cd mx n t st).1 = true ->
  service n' = service n ->
  is_recovery n' = false ->
  t' - t < cd * usec ->
  (should_send_notification cd mx n' t'
     (should_send_notification cd mx n t st).2).1 = false.
Proof.
  intros _ Ha Hs Hr Hlt.
  unfold should_send_notification at 1. rewrite Hr.
  unfold cooldown_active. rewrite (gate_approved_stamp _ _ _ _ _ Ha), Hs.
  rewrite lookup_insert_eq.
  now rewrite (proj2 (Z.ltb_lt _ _) Hlt).
Qed.

(** X11 at a new outage of github 100 seconds after its recovery was
    approved, with a cooldown of 300 seconds. *)
Lemma cooldown_after_approval_witness :
  (should_send_notification 300 20
     (sample_notification "github" "OPERATIONAL" "major_outage")
     (100 * usec)
     (should_send_notification 300 20
        (sample_notification "github" "major_outage" "OPERATIONAL")
        0 fresh_gate).2).1 = false.
Proof.
  apply (cooldown_after_approval 300 20
           (sample_notification "github" "major_outage" "OPERATIONAL")
           0 fresh_gate
           (sample_notification "github" "OPERATIONAL" "major_outage")
           (100 * usec)); try reflexivity.
  unfold exact_cooldown_bound. lia.
Defined.

(** X12: whatever it answers, the gate never changes [rate_limiter], never
    changes the cooldown stamp of another service, and only ever appends to
    the history, at most one entry, which is for the notification's service
    and carries the current time. *)
Theorem gate_frame cd mx n now st :
  let r := should_send_notification cd mx n now st in
  rate_limiter r.2 = rate_limiter st /\
  (forall s, s <> service n ->
     last_notification_times r.2 !! s = last_notification_times st !! s) /\
  (notification_history r.2 = notification_history st \/
   exists change,
     notification_history r.2 =
       notification_history st ++
         [ {| hist_service := service n; hist_timestamp := Some now;
              hist_status_change := change |} ]).
Proof.
  cbv zeta. unfold should_send_notification.
  destruct (is_recovery n); [| destruct (cooldown_active _ _ _ _);
                               [| destruct (mx <=? _)]];
    cbn [fst snd rate_limiter last_notification_times notification_history].
  all: split; [reflexivity |]; split;
    [intros s Hs; now rewrite ?lookup_insert_ne by congruence |].
  all: first [left; reflexivity | right; eexists; reflexivity].
Qed.

(** X13: the hourly cap is kept.  Right after an approved notification that
    is not a recovery, the history entries within the trailing hour number
    at most [MAX_NOTIFICATIONS_PER_HOUR]. *)
Theorem approval_keeps_hourly_cap cd mx n now st :
  is_recovery n = false ->
  (should_send_notification cd mx n now st).1 = true ->
  Z.of_nat (length (recent_notifications now
                      (notification_history
                         (should_send_notification cd mx n now st).2)))
  <= mx.
Proof.
  intros Hr Ha. rewrite (gate_approved _ _ _ _ _ Hr Ha).
  rewrite recent_app, recent_one by (rewrite Z.sub_diag; reflexivity).
  rewrite length_app. simpl.
  unfold should_send_notification in Ha. rewrite Hr in Ha.
  destruct (cooldown_active cd (service n) now st); [discriminate |].
  destruct (mx <=? _) eqn:E; [discriminate |].
  apply Z.leb_gt in E. lia.
Qed.

(** X13 at an outage of jira approved from the busy state with a cap of 3. *)
Lemma approval_keeps_hourly_cap_witness :
  Z.of_nat (length (recent_notifications (60 * usec)
                      (notification_history
                         (should_send_notification 300 3
                            (sample_notification "jira" "OPERATIONAL" "ERROR")
                            (60 * usec) busy_gate).2)))
  <= 3.
Proof.
  apply (approval_keeps_hourly_cap 300 3
           (sample_notification "jira" "OPERATIONAL" "ERROR")
           (60 * usec) busy_gate); reflexivity.
Defined.

(** X12 at a denied outage of github: the stamp of aws is untouched. *)
Lemma gate_frame_witness :
  last_notification_times
    (should_send_notification 300 20
       (sample_notification "github" "OPERATIONAL" "major_outage")
       (60 * usec) busy_gate).2 !! "aws"
  = last_notification_times busy_gate !! "aws".
Proof.
  apply (gate_frame 300 20
           (sample_notification "github" "OPERATIONAL" "major_outage")
           (60 * usec) busy_gate).
  discriminate.
Defined.

(** * Presentation of a status *)

Ltac by_status cn :=
  destruct (String.eqb_spec cn "operational") as [-> | ?];
  [| destruct (String.eqb_spec cn "degraded") as [-> | ?];
     [| destruct (String.eqb_spec cn "investigating") as [-> | ?];
        [| destruct (String.eqb_spec cn "major_outage") as [-> | ?];
           [| destruct (String.eqb_spec cn "maintenance") as [-> | ?] ]]]].

(** X14: the emoji, the colour and the severity of a status agree.  The red
    circle is shown exactly for the statuses of severity "critical", and
    then the colour is "danger"; the check mark exactly for those of
    severity "resolved", which are also exactly those coloured "good"; the
    [severity] argument of [get_status_emoji] has no effect. *)
Theorem presentation_matches_severity raw sev p :
  (get_status_emoji raw sev = ":red_circle:" <->
   severity_of (normalize_status raw) = "critical") /\
  (severity_of (normalize_status raw) = "critical" ->
   get_priority_color p raw = "danger") /\
  (get_status_emoji raw sev = ":white_check_mark:" <->
   severity_of (normalize_status raw) = "resolved") /\
  (get_priority_color p raw = "good" <->
   severity_of (normalize_status raw) = "resolved") /\
  get_status_emoji raw sev = get_status_emoji raw "info".
Proof.
  unfold get_status_emoji, get_priority_color, severity_of, PyStr.mem.
  cbv zeta. cbn [existsb].
  set (cn := normalize_status raw). clearbody cn.
  assert (Hc : forall q, default "warning" (priority_colors !! q) <> "good").
  { intros q.
    destruct (String.eqb_spec q "critical") as [-> | ?]; [discriminate |].
    destruct (String.eqb_spec q "high") as [-> | ?]; [discriminate |].
    destruct (String.eqb_spec q "medium") as [-> | ?]; [discriminate |].
    destruct (String.eqb_spec q "low") as [-> | ?]; [discriminate |].
    unfold priority_colors. cbn [list_to_map foldr uncurry fst snd].
    rewrite !lookup_insert_ne by congruence. rewrite lookup_empty.
    discriminate. }
  specialize (Hc p).
  by_status cn; cbn [orb];
    repeat split; intros; try reflexivity; try discriminate; try congruence.
Qed.

(** X14 at "ERROR", the status recorded when a source cannot be read. *)
Lemma presentation_matches_severity_witness :
  get_priority_color "low" "ERROR" = "danger".
Proof.
  apply (proj1 (proj2 (presentation_matches_severity "ERROR" "info" "low"))).
  reflexivity.
Defined.

(** X15: the priority decides the colour only for an opaque status, which is
    also exactly when the emoji is the question mark; for the five canonical
    statuses the colour does not depend on the priority.  A priority outside
    the colour table gives "warning". *)
Theorem priority_colours_opaque_only raw sev p :
  let canonical :=
    In (normalize_status raw)
       ["operational"; "degraded"; "investigating"; "major_outage";
        "maintenance"] in
  (canonical -> forall q, get_priority_color p raw = get_priority_color q raw) /\
  (~ canonical ->
   get_priority_color p raw = default "warning" (priority_colors !! p)) /\
  (~ canonical <-> get_status_emoji raw sev = ":question:") /\
  (~ In p ["critical"; "high"; "medium"; "low"] ->
   default "warning" (priority_colors !! p) = "warning").
Proof.
  cbv zeta.
  unfold get_status_emoji, get_priority_color, PyStr.mem.
  cbv zeta. cbn [existsb In].
  set (cn := normalize_status raw). clearbody cn.
  split; [| split; [| split]].
  - intros H q. by_status cn; cbn [orb]; try reflexivity.
    exfalso. intuition congruence.
  - intros H. by_status cn; cbn [orb]; try reflexivity;
      exfalso; apply H; tauto.
  - by_status cn; cbn [orb];
      (split; [intros H; try reflexivity; exfalso; apply H; tauto
              | intros H; try discriminate H]).
    intuition congruence.
  - intros H. unfold priority_colors.
    cbn [list_to_map foldr uncurry fst snd].
    rewrite !lookup_insert_ne by intuition congruence.
    now rewrite lookup_empty.
Qed.

(** X15 at okta's opaque incident count with a priority of "critical". *)
Lemma priority_colours_witness :
  get_priority_color "critical" "INCIDENTS (3)" = "danger".
Proof.
  rewrite (proj1 (proj2 (priority_colours_opaque_only "INCIDENTS (3)" "info"
                           "critical"))).
  - reflexivity.
  - vm_compute. intros H.
    repeat (destruct H as [H | H]; [discriminate H |]). destruct H.
Defined.

(** * Statuses computed from an issue count *)

Lemma normalize_label n :
  normalize_status (calculate_status_label n) =
    if n =? 0 then "operational" else "degraded".
Proof.
  unfold calculate_status_label.
  destruct (n =? 0); [reflexivity |]. destruct (n <=? 2); reflexivity.
Qed.

(** X16: a status made by [calculate_status_label] normalizes to operational
    when the count is 0 and to degraded otherwise, in step with the colour
    being green.  So for a monitored service whose current and previous
    statuses are such labels, the detector reports a change exactly when one
    count is 0 and the other is not, at once and without touching the
    buffer; in particular a move between "MINOR ISSUE" and "DEGRADED" is
    not reported. *)
Theorem label_changes_reported thr cur prev now buf s n m :
  In s MONITORED_SERVICES ->
  current_raw cur s = Some (calculate_status_label n) ->
  previous_raw prev s = calculate_status_label m ->
  (calculate_status_color n = "green" <->
   normalize_status (calculate_status_label n) = "operational") /\
  for_service s (detect_enhanced_status_changes thr cur prev now buf).1 =
    (if Bool.eqb (n =? 0) (m =? 0) then []
     else [make_notification cur now s (calculate_status_label m)
             (calculate_status_label n)]) /\
  (forall c,
     (detect_enhanced_status_changes thr cur prev now buf).2 !! buffer_key s c
     = buf !! buffer_key s c).
Proof.
  intros Hs Hraw Hprev. split.
  { rewrite normalize_label. unfold calculate_status_color.
    destruct (n =? 0); [tauto |].
    destruct (n <=? 2); split; discriminate. }
  destruct (detect_focus thr cur prev now s buf Hs) as [F1 F2].
  destruct (Bool.eqb (n =? 0) (m =? 0)) eqn:E.
  - assert (Hskip : is_skipped (normalize_status (calculate_status_label n))
                      (normalize_status (previous_raw prev s)) = true).
    { rewrite Hprev, !normalize_label.
      destruct (n =? 0), (m =? 0); try discriminate E; reflexivity. }
    rewrite (step_skipped _ _ _ _ s _ buf Hraw Hskip) in F1, F2.
    now split.
  - assert (Hskip : is_skipped (normalize_status (calculate_status_label n))
                      (normalize_status (previous_raw prev s)) = false).
    { rewrite Hprev, !normalize_label.
      destruct (n =? 0), (m =? 0); try discriminate E; reflexivity. }
    assert (Himm : is_immediate (normalize_status (calculate_status_label n))
                     (normalize_status (previous_raw prev s)) = true).
    { rewrite Hprev, !normalize_label.
      destruct (n =? 0), (m =? 0); try discriminate E; reflexivity. }
    rewrite (step_unskipped _ _ _ _ s _ buf Hraw Hskip) in F1, F2.
    cbv zeta in F1, F2. rewrite Himm in F1, F2. rewrite Hprev in F1.
    now split.
Qed.

(** X16 at github going from one issue to three. *)
Lemma label_changes_reported_witness :
  for_service "github"
    (detect_enhanced_status_changes 1 (snapshot_of "github" "DEGRADED")
       (snapshot_of "github" "MINOR ISSUE") 0 ∅).1 = [].
Proof.
  apply (label_changes_reported 1 (snapshot_of "github" "DEGRADED")
           (snapshot_of "github" "MINOR ISSUE") 0 ∅ "github" 3 1).
  - simpl. tauto.
  - reflexivity.
  - reflexivity.
Defined.

(** * Sending *)

(** X17: what a send does to the gate state and when it succeeds.  Without
    a webhook URL (unset or empty) nothing is sent and the gate is not even
    asked, so its state is unchanged, also for a recovery.  With a URL the
    state afterwards is the one the gate leaves, whatever the POST does: a
    failed delivery does not undo the bookkeeping.  The send succeeds
    exactly when there is a URL, the gate approves and the POST answers
    200. *)
Theorem send_bookkeeping url cd mx n now outcome st :
  let r := send_enhanced_slack_notification url cd mx n now outcome st in
  (webhook_missing url = true -> r = (false, st)) /\
  (webhook_missing url = false ->
   r.2 = (should_send_notification cd mx n now st).2) /\
  (r.1 = true <->
   webhook_missing url = false /\
   (should_send_notification cd mx n now st).1 = true /\
   outcome = HttpStatus 200).
Proof.
  cbv zeta. unfold send_enhanced_slack_notification.
  destruct (webhook_missing url).
  { split; [reflexivity |]. split; [discriminate |].
    split; [discriminate | intros [H _]; discriminate H]. }
  split; [discriminate |].
  destruct (should_send_notification cd mx n now st) as [[] st1];
    cbn [negb fst snd].
  - destruct outcome as [code|].
    + destruct (Z.eqb_spec code 200) as [-> | Hne]; cbn [fst snd].
      * repeat split.
      * split; [reflexivity |].
        split; [discriminate | intros (_ & _ & [= ->]); congruence].
    + split; [reflexivity |].
      split; [discriminate | intros (_ & _ & [=])].
  - split; [reflexivity |].
    split; [discriminate | intros (_ & [=] & _)].
Qed.

(** X17 at a recovery of github sent while no webhook is configured. *)
Lemma send_bookkeeping_witness :
  send_enhanced_slack_notification None 300 20
    (sample_notification "github" "major_outage" "OPERATIONAL")
    (60 * usec) (HttpStatus 200) busy_gate = (false, busy_gate).
Proof.
  apply (send_bookkeeping None 300 20
           (sample_notification "github" "major_outage" "OPERATIONAL")
           (60 * usec) (HttpStatus 200) busy_gate).
  reflexivity.
Defined.

(** X18: a delivery that fails still starts the cooldown.  For a cooldown
    between 0 and 2^33 seconds, when the gate approves a notification at
    time [t] and the POST fails, sending a notification of the same service
    that is not a recovery is refused at every time less than the cooldown
    after [t], even if that POST would succeed: the alert is not retried. *)
Theorem failed_delivery_starts_cooldown url cd mx n t outcome st n' t' outcome' :
  0 <= cd <= exact_cooldown_bound ->
  webhook_missing url = false ->
  (should_send_notification cd mx n t st).1 = true ->
  outcome <> HttpStatus 200 ->
  service n' = service n ->
  is_recovery n' = false ->
  t' - t < cd * usec ->
  let r := send_enhanced_slack_notification url cd mx n t outcome st in
  r.1 = false /\
  (send_enhanced_slack_notification url cd mx n' t' outcome' r.2).1 = false.
Proof.
  intros _ Hw Ha Ho Hs Hr Hlt r.
  assert (E2 : r.2 = (should_send_notification cd mx n t st).2).
  { unfold r, send_enhanced_slack_notification. rewrite Hw.
    destruct (should_send_notification cd mx n t st) as [[] st1];
      cbn [negb fst snd]; [| reflexivity].
    destruct outcome as [code|]; [destruct (code =? 200) |]; reflexivity. }
  split.
  - unfold r, send_enhanced_slack_notification. rewrite Hw.
    destruct (should_send_notification cd mx n t st) as [[] st1];
      cbn [negb fst snd]; [| reflexivity].
    destruct outcome as [code|]; [| reflexivity].
    destruct (Z.eqb_spec code 200) as [-> | ?]; [congruence | reflexivity].
  - rewrite E2. unfold send_enhanced_slack_notification. rewrite Hw.
    assert (D : (should_send_notification cd mx n' t'
                   (should_send_notification cd mx n t st).2).1 = false).
    { unfold should_send_notification at 1. rewrite Hr.
      unfold cooldown_active.
      rewrite (gate_approved_stamp _ _ _ _ _ Ha), Hs, lookup_insert_eq.
      now rewrite (proj2 (Z.ltb_lt _ _) Hlt). }
    destruct (should_send_notification cd mx n' t' _) as [[] st2];
      [discriminate D | reflexivity].
Qed.

(** X18 at an outage of jira whose POST answers 500, retried 60 seconds
    later with a cooldown of 300 seconds. *)
Lemma failed_delivery_witness :
  (send_enhanced_slack_notification (Some "https://hooks.example") 300 20
     (sample_notification "jira" "OPERATIONAL" "ERROR") (60 * usec)
     (HttpStatus 200)
     (send_enhanced_slack_notification (Some "https://hooks.example") 300 20
        (sample_notification "jira" "OPERATIONAL" "ERROR") 0
        (HttpStatus 500) fresh_gate).2).1 = false.
Proof.
  apply (failed_delivery_starts_cooldown (Some "https://hooks.example")
           300 20 (sample_notification "jira" "OPERATIONAL" "ERROR") 0
           (HttpStatus 500) fresh_gate
           (sample_notification "jira" "OPERATIONAL" "ERROR") (60 * usec)
           (HttpStatus 200)); try reflexivity.
  - unfold exact_cooldown_bound. lia.
  - discriminate.
Defined.

(** * The monitoring loop *)

Section LoopFacts.
Variables (url : option string) (interval cd mx thr : Z).

Local Abbreviation cycle := (monitoring_cycle url interval cd mx thr).
Local Abbreviation cycles := (monitoring_cycles url interval cd mx thr).

Lemma cycle_detects d c now io st p :
  loop_previous_status st = Some p ->
  let cur := {| details := Some d; components := Some c |} in
  let det := detect_enhanced_status_changes thr cur p now (loop_buffer st) in
  found (cycle (Fetched d c) now io st).2 = det.1 /\
  loop_buffer (cycle (Fetched d c) now io st).1 = det.2 /\
  loop_previous_status (cycle (Fetched d c) now io st).1 = Some cur.
Proof.
  intros Hp. cbv zeta. unfold monitoring_cycle. rewrite Hp.
  destruct (detect_enhanced_status_changes _ _ _ _ _) as [ns buf1].
  destruct (send_all _ _ _ _ _ _ _) as [ok gate1].
  repeat split.
Qed.

Lemma cycle_not_fetched fetch now io st :
  fetch = FetchTimedOut \/ fetch = FetchFailed ->
  found (cycle fetch now io st).2 = [] /\
  loop_buffer (cycle fetch now io st).1 = loop_buffer st /\
  loop_gate (cycle fetch now io st).1 = loop_gate st /\
  loop_previous_status (cycle fetch now io st).1 = loop_previous_status st.
Proof. intros [-> | ->]; repeat split. Qed.

Lemma cycles_cons fetch now io rest st :
  cycles ((fetch, now, io) :: rest) st =
    ((cycles rest (cycle fetch now io st).1).1,
     (cycle fetch now io st).2 :: (cycles rest (cycle fetch now io st).1).2).
Proof.
  cbn [monitoring_cycles].
  destruct (cycle fetch now io st) as [st1 report]. cbn [fst snd].
  destruct (cycles rest st1) as [st2 reports]. reflexivity.
Qed.

(** While the status of [s] normalizes as in the stored previous snapshot,
    to something other than unknown, no cycle reports [s] and the pending
    confirmations of [s] are left alone. *)
Lemma steady_silent s cn :
  In s MONITORED_SERVICES -> cn <> "unknown" ->
  forall inputs st,
    Forall (fun i => keeps_status s cn i.1.1) inputs ->
    (exists p raw,
       loop_previous_status st = Some p /\ current_raw p s = Some raw /\
       normalize_status raw = cn) ->
    Forall (fun r => for_service s (found r) = []) (cycles inputs st).2 /\
    (forall c, loop_buffer (cycles inputs st).1 !! buffer_key s c
               = loop_buffer st !! buffer_key s c).
Proof.
  intros Hs Hcn. induction inputs as [|[[fetch now] io] rest IH];
    intros st Hall (p & praw & Hp & Hpraw & Hpn); [now split |].
  apply Forall_cons in Hall as [Hk Hall]. cbn [fst] in Hk.
  rewrite cycles_cons. cbn [fst snd].
  assert (Step :
    for_service s (found (cycle fetch now io st).2) = [] /\
    (forall c, loop_buffer (cycle fetch now io st).1 !! buffer_key s c
               = loop_buffer st !! buffer_key s c) /\
    exists p' raw',
      loop_previous_status (cycle fetch now io st).1 = Some p' /\
      current_raw p' s = Some raw' /\ normalize_status raw' = cn).
  { destruct fetch as [d c | |].
    - destruct Hk as (raw & Hraw & Hn).
      destruct (cycle_detects d c now io st p Hp) as (E1 & E2 & E3).
      rewrite E1, E2, E3.
      set (cur := {| details := Some d; components := Some c |}).
      destruct (detect_focus thr cur p now s (loop_buffer st) Hs) as [F1 F2].
      assert (Hcur : current_raw cur s = Some raw) by exact Hraw.
      assert (Hskip : is_skipped (normalize_status raw)
                        (normalize_status (previous_raw p s)) = true).
      { assert (Hprev : previous_raw p s = praw).
        { unfold previous_raw. unfold current_raw in Hpraw.
          now rewrite Hpraw. }
        unfold is_skipped. rewrite Hprev, Hn, Hpn, String.eqb_refl.
        now rewrite (proj2 (String.eqb_neq _ _) Hcn). }
      rewrite (step_skipped _ _ _ _ s raw _ Hcur Hskip) in F1, F2.
      split; [exact F1 |]. split; [exact F2 |]. now exists cur, raw.
    - destruct (cycle_not_fetched FetchTimedOut now io st) as (E1 & E2 & _ & E4);
        [now left |].
      rewrite E1, E2, E4. split; [reflexivity |]. split; [reflexivity |].
      now exists p, praw.
    - destruct (cycle_not_fetched FetchFailed now io st) as (E1 & E2 & _ & E4);
        [now right |].
      rewrite E1, E2, E4. split; [reflexivity |]. split; [reflexivity |].
      now exists p, praw. }
  destruct Step as (S1 & S2 & S3).
  destruct (IH _ Hall S3) as [I1 I2].
  split; [apply Forall_cons; split; assumption |].
  intros c. now rewrite I2, S2.
Qed.
End LoopFacts.

(** X19: a service that is already in some non-unknown status when the
    monitor starts without a stored snapshot is never reported while that
    status lasts.  The first successful cycle only records the baseline: it
    finds nothing, whatever the statuses are, and leaves the buffer and the
    gate alone; every later cycle in which the service's status normalizes
    the same (or whose fetch fails) reports nothing for it. *)
Theorem down_at_start_never_reported
    url interval cd mx thr s d c now io rest st raw :
  In s MONITORED_SERVICES ->
  loop_previous_status st = None ->
  d !! s = Some raw ->
  normalize_status raw <> "unknown" ->
  Forall (fun i => keeps_status s (normalize_status raw) i.1.1) rest ->
  let first := monitoring_cycle url interval cd mx thr (Fetched d c) now io st in
  let run :=
    monitoring_cycles url interval cd mx thr ((Fetched d c, now, io) :: rest) st in
  found first.2 = [] /\
  loop_buffer first.1 = loop_buffer st /\
  loop_gate first.1 = loop_gate st /\
  Forall (fun r => for_service s (found r) = []) run.2.
Proof.
  intros Hs Hnone Hraw Hn Hrest first run.
  assert (E : first =
    ({| loop_previous_status :=
          Some {| details := Some d; components := Some c |};
        loop_buffer := loop_buffer st; loop_gate := loop_gate st;
        consecutive_errors := 0 |},
     {| found := []; delivered := []; system_alert := false;
        sleep_time := interval |})).
  { unfold first, monitoring_cycle. now rewrite Hnone. }
  unfold run. rewrite cycles_cons. fold first. rewrite E. cbn [fst snd].
  repeat split.
  apply Forall_cons. split; [reflexivity |].
  apply (steady_silent url interval cd mx thr s (normalize_status raw) Hs Hn).
  - exact Hrest.
  - eexists _, raw. repeat split. exact Hraw.
Qed.

(** X19 at aws found in "ERROR" by the first cycle and by the next one. *)
Lemma down_at_start_witness :
  let st := {| loop_previous_status := None; loop_buffer := ∅;
               loop_gate := fresh_gate; consecutive_errors := 0 |} in
  let io := fun _ : nat => (0, HttpStatus 200) in
  Forall (fun r => for_service "aws" (found r) = [])
    (monitoring_cycles (Some "https://hooks.example") 120 300 20 1
       [(Fetched {[ "aws" := "ERROR" ]} ∅, 0, io);
        (Fetched {[ "aws" := "error" ]} ∅, 120 * usec, io)] st).2.
Proof.
  intros st io.
  apply (down_at_start_never_reported (Some "https://hooks.example")
           120 300 20 1 "aws" {[ "aws" := "ERROR" ]} ∅ 0 io
           [(Fetched {[ "aws" := "error" ]} ∅, 120 * usec, io)] st "ERROR").
  - simpl. tauto.
  - reflexivity.
  - reflexivity.
  - vm_compute. discriminate.
  - apply Forall_cons. split; [| apply Forall_nil; trivial].
    exists "error". split; reflexivity.
Defined.

(** X20: with a threshold above 1 the loop never confirms a minor change
    that simply lasts.  The cycle that first sees the change buffers it with
    count 1; since each cycle compares with the snapshot of the one before,
    the following cycles see no change, so while the status normalizes the
    same (and is not unknown) nothing is reported for the service and the
    count stays 1. *)
Theorem steady_minor_change_never_confirmed
    url interval cd mx thr s cn d c now io rest st p :
  1 < thr ->
  In s MONITORED_SERVICES ->
  loop_previous_status st = Some p ->
  minor_change {| details := Some d; components := Some c |} p s cn ->
  cn <> "unknown" ->
  loop_buffer st !! buffer_key s cn = None ->
  Forall (fun i => keeps_status s cn i.1.1) rest ->
  let run :=
    monitoring_cycles url interval cd mx thr ((Fetched d c, now, io) :: rest) st in
  Forall (fun r => for_service s (found r) = []) run.2 /\
  count <$> loop_buffer run.1 !! buffer_key s cn = Some 1.
Proof.
  intros Hthr Hs Hp M Hcn Hb Hrest run.
  unfold run. rewrite cycles_cons. cbn [fst snd].
  destruct (cycle_detects url interval cd mx thr d c now io st p Hp)
    as (E1 & E2 & E3).
  set (cur := {| details := Some d; components := Some c |}) in *.
  pose proof (detect_minor thr cur p now (loop_buffer st) s cn Hs M) as D.
  cbv zeta in D. rewrite Hb in D. cbn [fmap option_fmap option_map default] in D.
  change (0 + 1) with 1 in D. rewrite (proj2 (Z.ltb_lt 1 thr) Hthr) in D.
  destruct D as [D1 D2].
  destruct M as (_ & raw & Hraw & Hn & _).
  destruct (steady_silent url interval cd mx thr s cn Hs Hcn rest
              (monitoring_cycle url interval cd mx thr (Fetched d c) now io st).1
              Hrest) as [S1 S2].
  { exists cur, raw. now rewrite E3. }
  split.
  - apply Forall_cons. split; [now rewrite E1 | exact S1].
  - now rewrite S2, E2.
Qed.

(** X20 at jira entering scheduled maintenance and staying there for two
    more cycles, with a threshold of 2. *)
Lemma steady_minor_change_witness :
  let st := {| loop_previous_status := Some (snapshot_of "jira" "OPERATIONAL");
               loop_buffer := ∅; loop_gate := fresh_gate;
               consecutive_errors := 0 |} in
  let io := fun _ : nat => (0, HttpStatus 200) in
  let d : gmap string string := {[ "jira" := "Scheduled Maintenance" ]} in
  Forall (fun r => for_service "jira" (found r) = [])
    (monitoring_cycles (Some "https://hooks.example") 120 300 20 2
       [(Fetched d ∅, 0, io); (Fetched d ∅, 1, io); (Fetched d ∅, 2, io)] st).2.
Proof.
  intros st io d.
  apply (steady_minor_change_never_confirmed (Some "https://hooks.example")
           120 300 20 2 "jira" "maintenance" d ∅ 0 io
           [(Fetched d ∅, 1, io); (Fetched d ∅, 2, io)] st
           (snapshot_of "jira" "OPERATIONAL")).
  - lia.
  - simpl. tauto.
  - reflexivity.
  - split.
    + simpl. intros H. repeat (destruct H as [H | H]; [discriminate H |]).
      destruct H.
    + exists "Scheduled Maintenance".
      split; [reflexivity |]. split; [reflexivity |].
      vm_compute. discriminate.
  - discriminate.
  - reflexivity.
  - repeat (apply Forall_cons; split;
            [exists "Scheduled Maintenance"; split; reflexivity |]).
    apply Forall_nil. trivial.
Defined.

(** X21: the sleep after a failed cycle.  For a non-negative nominal
    interval and a positive error count the sleep never exceeds 1800
    seconds and does not shrink as errors accumulate; it is at least the
    nominal interval when that is at most 1800, and exactly 1800 when the
    nominal interval is 1800 or more, so that a longer nominal interval is
    cut short by an error. *)
Theorem backoff_bounds interval e e' :
  0 <= interval -> 0 < e -> e <= e' ->
  adaptive_sleep interval e <= 1800 /\
  adaptive_sleep interval e <= adaptive_sleep interval e' /\
  (interval <= 1800 -> interval <= adaptive_sleep interval e) /\
  (1800 <= interval -> adaptive_sleep interval e = 1800).
Proof.
  intros Hi He Hee. unfold adaptive_sleep.
  rewrite (proj2 (Z.ltb_lt 0 e)) by lia.
  rewrite (proj2 (Z.ltb_lt 0 e')) by lia.
  assert (P1 : 2 <= 2 ^ e).
  { change 2 with (2 ^ 1) at 1. apply Z.pow_le_mono_r; lia. }
  assert (P2 : 2 ^ e <= 2 ^ e') by (apply Z.pow_le_mono_r; lia).
  repeat split; try nia.
Qed.

(** X21 at the default interval of 120 seconds: 240 seconds after the first
    error and no more after the fifth. *)
Lemma backoff_bounds_witness :
  adaptive_sleep 120 1 <= adaptive_sleep 120 5.
Proof.
  apply (backoff_bounds 120 1 5); lia.
Defined.

Section ErrorAccounting.
Variables (url : option string) (interval cd mx thr : Z).

Local Abbreviation cycles := (monitoring_cycles url interval cd mx thr).

Lemma timeouts_accumulate : forall inputs st,
  Forall (fun i => i.1.1 = FetchTimedOut) inputs ->
  consecutive_errors (cycles inputs st).1
    = consecutive_errors st + Z.of_nat (length inputs) /\
  Forall (fun r => system_alert r = false /\ found r = []) (cycles inputs st).2 /\
  loop_previous_status (cycles inputs st).1 = loop_previous_status st /\
  loop_buffer (cycles inputs st).1 = loop_buffer st /\
  loop_gate (cycles inputs st).1 = loop_gate st.
Proof.
  induction inputs as [|[[fetch now] io] rest IH]; intros st Hall.
  { simpl. repeat split; [lia | constructor]. }
  apply Forall_cons in Hall as [Hf Hall]. cbn [fst] in Hf. subst fetch.
  rewrite cycles_cons. cbn [fst snd].
  destruct (IH (monitoring_cycle url interval cd mx thr FetchTimedOut now io st).1
               Hall) as (I1 & I2 & I3 & I4 & I5).
  rewrite I1, I3, I4, I5. cbn [monitoring_cycle fst snd consecutive_errors
    loop_previous_status loop_buffer loop_gate length].
  repeat split; [lia |]. apply Forall_cons. split; [now split | exact I2].
Qed.

Lemma failures_wrap : forall inputs st,
  Forall (fun i => i.1.1 = FetchFailed) inputs ->
  0 <= consecutive_errors st < 5 ->
  consecutive_errors (cycles inputs st).1
    = (consecutive_errors st + Z.of_nat (length inputs)) mod 5 /\
  Z.of_nat (length (List.filter system_alert (cycles inputs st).2))
    = (consecutive_errors st + Z.of_nat (length inputs)) / 5 /\
  loop_previous_status (cycles inputs st).1 = loop_previous_status st /\
  loop_buffer (cycles inputs st).1 = loop_buffer st /\
  loop_gate (cycles inputs st).1 = loop_gate st.
Proof.
  induction inputs as [|[[fetch now] io] rest IH]; intros st Hall Hc.
  { simpl. repeat split; try reflexivity.
    - rewrite Z.add_0_r, Z.mod_small; lia.
    - rewrite Z.add_0_r, Z.div_small; lia. }
  apply Forall_cons in Hall as [Hf Hall]. cbn [fst] in Hf. subst fetch.
  rewrite cycles_cons. cbn [fst snd].
  set (st1 := (monitoring_cycle url interval cd mx thr FetchFailed now io st).1).
  assert (E1 : consecutive_errors st1 =
               if max_consecutive_errors <=? consecutive_errors st + 1
               then 0 else consecutive_errors st + 1) by reflexivity.
  assert (E2 : system_alert
                 (monitoring_cycle url interval cd mx thr FetchFailed now io st).2
               = (max_consecutive_errors <=? consecutive_errors st + 1))
    by reflexivity.
  unfold max_consecutive_errors in E1, E2.
  destruct (IH st1 Hall) as (I1 & I2 & I3 & I4 & I5).
  { rewrite E1. destruct (Z.leb_spec 5 (consecutive_errors st + 1)); lia. }
  rewrite I1, I3, I4, I5. cbn [List.filter]. rewrite E2.
  assert (L : Z.of_nat (length ((FetchFailed, now, io) :: rest))
              = Z.of_nat (length rest) + 1) by (cbn [length]; lia).
  rewrite L, E1. rewrite E1 in I2. clear E1 E2 L I1 I3 I4 I5.
  set (k := Z.of_nat (length rest)) in *.
  set (c := consecutive_errors st) in *.
  revert I2. destruct (Z.leb_spec 5 (c + 1)); intros I2.
  - assert (c = 4) as -> by lia.
    replace (4 + (k + 1)) with (0 + k + 1 * 5) by lia.
    rewrite Z.mod_add, Z.div_add by lia.
    cbn [length]. rewrite Nat2Z.inj_succ, I2.
    repeat split; lia.
  - replace (c + (k + 1)) with (c + 1 + k) by lia.
    repeat split. exact I2.
Qed.
End ErrorAccounting.

(** X22: how failed cycles are counted.  Cycles whose fetch fails with an
    exception, starting from a count below 5, send the system alert at every
    fifth consecutive failure and restart the count, so after [k] failures
    from a count [c] the count is [(c + k) mod 5] and [(c + k) / 5] alerts
    were sent.  Cycles whose fetch times out only raise the count: after [k]
    timeouts it is [c + k] and no alert was sent, however large [k] is.
    Neither kind of cycle touches the stored snapshot, the buffer or the
    gate. *)
Theorem failed_cycles_accounting url interval cd mx thr inputs st :
  let run := monitoring_cycles url interval cd mx thr inputs st in
  (Forall (fun i => i.1.1 = FetchFailed) inputs ->
   0 <= consecutive_errors st < 5 ->
   consecutive_errors run.1
     = (consecutive_errors st + Z.of_nat (length inputs)) mod 5 /\
   Z.of_nat (length (List.filter system_alert run.2))
     = (consecutive_errors st + Z.of_nat (length inputs)) / 5) /\
  (Forall (fun i => i.1.1 = FetchTimedOut) inputs ->
   consecutive_errors run.1
     = consecutive_errors st + Z.of_nat (length inputs) /\
   Forall (fun r => system_alert r = false) run.2) /\
  (Forall (fun i => i.1.1 = FetchFailed \/ i.1.1 = FetchTimedOut) inputs ->
   loop_previous_status run.1 = loop_previous_status st /\
   loop_buffer run.1 = loop_buffer st /\
   loop_gate run.1 = loop_gate st).
Proof.
  cbv zeta. split; [| split].
  - intros Hall Hc.
    destruct (failures_wrap url interval cd mx thr inputs st Hall Hc)
      as (H1 & H2 & _). now split.
  - intros Hall.
    destruct (timeouts_accumulate url interval cd mx thr inputs st Hall)
      as (H1 & H2 & _). split; [exact H1 |].
    eapply Forall_impl; [exact H2 |]. now intros r [H _].
  - revert st. induction inputs as [|[[fetch now] io] rest IH]; intros st Hall;
      [repeat split |].
    apply Forall_cons in Hall as [Hf Hall]. cbn [fst] in Hf.
    rewrite cycles_cons. cbn [fst snd].
    destruct (IH (monitoring_cycle url interval cd mx thr fetch now io st).1
                 Hall) as (I1 & I2 & I3).
    rewrite I1, I2, I3.
    destruct Hf as [-> | ->]; repeat split.
Qed.

(** X22 at seven timeouts in a row from a clean count. *)
Lemma failed_cycles_accounting_witness :
  let io := fun _ : nat => (0, HttpStatus 200) in
  let st := {| loop_previous_status := None; loop_buffer := ∅;
               loop_gate := fresh_gate; consecutive_errors := 0 |} in
  consecutive_errors
    (monitoring_cycles None 120 300 20 1
       (replicate 7 (FetchTimedOut, 0, io)) st).1 = 7.
Proof.
  intros io st.
  apply (proj1 (proj2 (failed_cycles_accounting None 120 300 20 1
                         (replicate 7 (FetchTimedOut, 0, io)) st))).
  repeat (apply Forall_cons; split; [reflexivity |]).
  apply Forall_nil. trivial.
Defined.

(** * The Azure and AWS status trees *)

Lemma sum_values_le f g (m : gmap string Json) :
  (forall k v, m !! k = Some v -> f v <= g v) ->
  sum_values f m <= sum_values g m.
Proof.
  intros H. unfold sum_values.
  assert (Hl : forall kv, In kv (map_to_list m) -> f kv.2 <= g kv.2).
  { intros [k v] Hin. apply (H k).
    now apply elem_of_map_to_list, list_elem_of_In. }
  induction (map_to_list m) as [|kv l IH]; simpl; [lia |].
  specialize (Hl kv (or_introl eq_refl)) as Hkv.
  assert (foldr (fun kv acc => f kv.2 + acc) 0 l
          <= foldr (fun kv acc => g kv.2 + acc) 0 l).
  { apply IH. intros kv' Hin. apply Hl. now right. }
  lia.
Qed.

Lemma sum_values_add f g (m : gmap string Json) :
  sum_values (fun v => f v + g v) m = sum_values f m + sum_values g m.
Proof.
  unfold sum_values. induction (map_to_list m) as [|kv l IH]; simpl; lia.
Qed.

Lemma sum_values_ext f g (m : gmap string Json) :
  (forall k v, m !! k = Some v -> f v = g v) ->
  sum_values f m = sum_values g m.
Proof.
  intros H. apply Z.le_antisymm; apply sum_values_le; intros k v Hk;
    rewrite (H k v Hk); lia.
Qed.

Lemma sum_values_const_one (m : gmap string Json) :
  sum_values (fun _ => 1) m = Z.of_nat (size m).
Proof.
  rewrite <- length_map_to_list. unfold sum_values.
  induction (map_to_list m) as [|kv l IH]; simpl length; simpl foldr; lia.
Qed.

Lemma sum_values_zero (m : gmap string Json) :
  sum_values (fun _ => 0) m = 0.
Proof.
  unfold sum_values. induction (map_to_list m) as [|kv l IH]; simpl; lia.
Qed.

Lemma count_values_none p (m : gmap string Json) :
  (forall k v, m !! k = Some v -> p v = false) -> count_values p m = 0.
Proof.
  intros H. unfold count_values.
  transitivity (sum_values (fun _ => 0) m); [| apply sum_values_zero].
  apply sum_values_ext. intros k v Hk. now rewrite (H k v Hk).
Qed.

Lemma count_values_nonneg p (m : gmap string Json) : 0 <= count_values p m.
Proof.
  unfold count_values.
  transitivity (sum_values (fun _ => 0) m);
    [now rewrite sum_values_zero |].
  apply sum_values_le. intros k v _. destruct (p v); lia.
Qed.

(** Two tests that exclude each other count at most every value once. *)
Lemma count_values_disjoint p q (m : gmap string Json) :
  (forall v, p v = true -> q v = true -> False) ->
  count_values p m + count_values q m <= Z.of_nat (size m).
Proof.
  intros H. unfold count_values.
  rewrite <- sum_values_add.
  transitivity (sum_values (fun _ => 1) m);
    [| now rewrite sum_values_const_one].
  apply sum_values_le. intros k v _.
  destruct (p v) eqn:Ep, (q v) eqn:Eq; try lia. destruct (H v Ep Eq).
Qed.

(** Two tests of which exactly one holds count every value once. *)
Lemma count_values_partition p q (m : gmap string Json) :
  (forall v, p v = negb (q v)) ->
  count_values p m + count_values q m = Z.of_nat (size m).
Proof.
  intros H. unfold count_values.
  rewrite <- sum_values_add.
  transitivity (sum_values (fun _ => 1) m);
    [| apply sum_values_const_one].
  apply sum_values_ext. intros k v _. rewrite (H v). destruct (q v); reflexivity.
Qed.

Lemma aws_colors v :
  get_aws_status_color v = "green" \/ get_aws_status_color v = "red".
Proof.
  destruct v as [| | |s| |]; try (right; reflexivity).
  simpl. destruct (String.eqb _ _); auto.
Qed.

Lemma calculate_status_color_red n :
  calculate_status_color n = "red" <-> 2 < n.
Proof.
  unfold calculate_status_color.
  destruct (Z.eqb_spec n 0); [split; [discriminate | intros; lia] |].
  destruct (Z.leb_spec n 2); split; intros Hn;
    first [discriminate Hn | lia | reflexivity].
Qed.

(** X23: the two colour functions.  Both are green exactly for a string
    that lower-cases to "available" (surrounding blanks are not trimmed),
    and such a string normalizes to operational; Azure is orange exactly for
    a string that lower-cases to "n/a", which AWS counts as red; anything
    else, such as a dict, a number or null, is red. *)
Theorem status_colours v :
  (get_aws_status_color v = "green" <->
   exists s, v = JStr s /\ PyStr.lower s = "available") /\
  (get_azure_status_color v = "green" <-> get_aws_status_color v = "green") /\
  (get_azure_status_color v = "orange" <->
   exists s, v = JStr s /\ PyStr.lower s = "n/a") /\
  (get_azure_status_color v = "orange" -> get_aws_status_color v = "red") /\
  (get_aws_status_color v <> "green" -> get_aws_status_color v = "red") /\
  (In (get_azure_status_color v) ["green"; "orange"; "red"]) /\
  (forall s, v = JStr s -> get_aws_status_color v = "green" ->
             normalize_status s = "operational").
Proof.
  destruct v as [| | |s| |]; cbn [get_aws_status_color get_azure_status_color].
  1-3, 5-6:
    repeat split; try discriminate; try tauto;
      try (intros (s & [=] & _)); try (simpl; tauto);
      intros s [=].
  destruct (String.eqb_spec (PyStr.lower s) "available") as [E | E].
  - repeat split; try discriminate; try tauto; try (simpl; tauto).
    + intros _. now exists s.
    + intros (s' & [= <-] & E'). rewrite E in E'. discriminate E'.
    + intros s' [= <-] _. unfold normalize_status.
      destruct s as [|c s]; [discriminate E |].
      cbn [PyStr.truthy negb]. rewrite E. reflexivity.
  - destruct (String.eqb_spec (PyStr.lower s) "n/a") as [E' | E'].
    + repeat split; try discriminate; try tauto; try (simpl; tauto).
      * intros (s' & [= <-] & E''). congruence.
      * intros _. now exists s.
    + repeat split; try discriminate; try tauto; try (simpl; tauto).
      * intros (s' & [= <-] & E''). congruence.
      * intros (s' & [= <-] & E''). congruence.
Qed.

(** X23 at a status written in capitals. *)
Lemma status_colours_witness : normalize_status "AVAILABLE" = "operational".
Proof.
  apply (proj2 (proj2 (proj2 (proj2 (proj2 (proj2
           (status_colours (JStr "AVAILABLE")))))))); reflexivity.
Defined.

Section StatusTreeFacts.
Variables (skip_geography skip_group : string -> bool).
Variables (color_of : Json -> string) (entry_of : Json -> Json).

Local Abbreviation process :=
  (process_status_data skip_geography skip_group color_of entry_of).

Lemma kept_geographies_dicts (m : gmap string Json) :
  forallb (fun kv => is_dict kv.2)
    (map_to_list (kept_geographies skip_geography m)) = true <->
  (forall k r, skip_geography k = false -> m !! k = Some r -> is_dict r = true).
Proof.
  rewrite forallb_forall. unfold kept_geographies. split.
  - intros H k r Hk Hr. apply (H (k, r)).
    apply list_elem_of_In, elem_of_map_to_list, map_lookup_filter_Some.
    now split.
  - intros H [k r] Hin.
    apply list_elem_of_In, elem_of_map_to_list, map_lookup_filter_Some in Hin
      as [Hr Hk]. now apply (H k r).
Qed.

Lemma process_falsy data :
  json_truthy data = false ->
  process data = Some (JObj ∅, "green", "OPERATIONAL").
Proof. intros H. unfold process_status_data. now rewrite H. Qed.

Lemma process_raises data :
  process data = None <->
  json_truthy data = true /\
  ~ (exists m, data = JObj m /\
       forall k r, skip_geography k = false -> m !! k = Some r ->
                   is_dict r = true).
Proof.
  unfold process_status_data.
  destruct (json_truthy data) eqn:T; cbn [negb].
  2: { split; [discriminate | intros [H _]; discriminate H]. }
  destruct data as [| | | | |m];
    try (split; [intros _; split; [reflexivity | intros (m & [=] & _)]
                | reflexivity]).
  destruct (forallb _ _) eqn:F.
  - split; [discriminate |]. intros [_ H]. exfalso. apply H.
    exists m. split; [reflexivity |]. now apply kept_geographies_dicts.
  - split; [| reflexivity]. intros _. split; [reflexivity |].
    intros (m' & [= <-] & H). apply kept_geographies_dicts in H. congruence.
Qed.

(** The label and colour come from one count. *)
Lemma process_label data p c l :
  process data = Some (p, c, l) ->
  exists n, c = calculate_status_color n /\ l = calculate_status_label n.
Proof.
  unfold process_status_data.
  destruct (json_truthy data); cbn [negb].
  2: { intros [= <- <- <-]. now exists 0. }
  destruct data as [| | | | |m]; try discriminate.
  destruct (forallb _ _); [| discriminate].
  intros [= <- <- <-]. eauto.
Qed.

Lemma region_not_red v :
  (forall g, v = JObj g ->
     region_red_issues skip_group color_of g <= 2) ->
  (process_region skip_group color_of entry_of v).2 = false.
Proof.
  intros H. destruct v as [| | | | |g]; try reflexivity.
  specialize (H g eq_refl). cbn [process_region snd].
  apply String.eqb_neq. intros E. apply calculate_status_color_red in E. lia.
Qed.

Lemma no_red_geography (m : gmap string Json) :
  (forall k regions region g,
     skip_geography k = false -> m !! k = Some (JObj regions) ->
     regions !! region = Some (JObj g) ->
     region_red_issues skip_group color_of g <= 2) ->
  total_red_geographies skip_geography skip_group color_of entry_of m = 0.
Proof.
  intros H. unfold total_red_geographies. apply count_values_none.
  intros k v Hk.
  apply map_lookup_filter_Some in Hk as [Hk Hskip]. cbn [fst] in Hskip.
  cbn [process_geography snd].
  assert (Z0 : geography_red_regions skip_group color_of entry_of
                 (dict_or_empty v) = 0).
  { apply count_values_none. intros region groups Hr.
    apply region_not_red. intros g ->.
    destruct v as [| | | | |regions]; cbn [dict_or_empty] in Hr;
      try (rewrite lookup_empty in Hr; discriminate Hr).
    exact (H k regions region g Hskip Hk Hr). }
  rewrite Z0. reflexivity.
Qed.

Lemma masking data m :
  data = JObj m ->
  (forall k r, skip_geography k = false -> m !! k = Some r ->
               is_dict r = true) ->
  (forall k regions region g,
     skip_geography k = false -> m !! k = Some (JObj regions) ->
     regions !! region = Some (JObj g) ->
     region_red_issues skip_group color_of g <= 2) ->
  exists p, process data = Some (p, "green", "OPERATIONAL").
Proof.
  intros -> Hd Hr. unfold process_status_data.
  destruct (json_truthy (JObj m)); cbn [negb]; [| eauto].
  rewrite (proj2 (kept_geographies_dicts m) Hd).
  rewrite (no_red_geography m Hr). eauto.
Qed.

Lemma sum_values_nonneg f (m : gmap string Json) :
  (forall v, 0 <= f v) -> 0 <= sum_values f m.
Proof.
  intros H. transitivity (sum_values (fun _ => 0) m);
    [now rewrite sum_values_zero |].
  apply sum_values_le. intros k v _. apply H.
Qed.

Lemma region_counts_le g :
  0 <= region_green_services skip_group color_of g /\
  0 <= region_red_issues skip_group color_of g /\
  region_green_services skip_group color_of g
    + region_red_issues skip_group color_of g
  <= total_services_in_region skip_group g.
Proof.
  unfold region_green_services, region_red_issues, total_services_in_region.
  split; [| split].
  - apply sum_values_nonneg. intros v. apply count_values_nonneg.
  - apply sum_values_nonneg. intros v. apply count_values_nonneg.
  - rewrite <- sum_values_add. apply sum_values_le. intros k v _.
    apply count_values_disjoint. intros x Hg Hr.
    apply String.eqb_eq in Hg, Hr. congruence.
Qed.

Lemma region_stats_stored g :
  exists d,
    process_region skip_group color_of entry_of (JObj g) =
      (JObj d, 2 <? region_red_issues skip_group color_of g) /\
    d !! "_region_stats" =
      Some (region_stats
              (calculate_status_color (region_red_issues skip_group color_of g))
              (region_green_services skip_group color_of g)
              (total_services_in_region skip_group g)).
Proof.
  eexists. split; [| apply lookup_insert_eq].
  cbn [process_region]. f_equal.
  destruct (Z.ltb_spec 2 (region_red_issues skip_group color_of g)) as [L | L].
  - apply String.eqb_eq, calculate_status_color_red, L.
  - apply String.eqb_neq. intros E. apply calculate_status_color_red in E. lia.
Qed.
End StatusTreeFacts.

(** X24: when the two tree functions give the default and when they raise.
    On a falsy input (no file, an empty dict) both return the empty tree
    with "green" and "OPERATIONAL".  [process_aws_data] raises exactly on a
    truthy input that is not a dict of dicts; [process_azure_data] likewise,
    except that the value under "Current Impact" is never looked at. *)
Theorem status_tree_default_and_errors data :
  (json_truthy data = false ->
   process_aws_data data = Some (JObj ∅, "green", "OPERATIONAL") /\
   process_azure_data data = Some (JObj ∅, "green", "OPERATIONAL")) /\
  (process_aws_data data = None <->
   json_truthy data = true /\
   ~ (exists m, data = JObj m /\
        forall k r, m !! k = Some r -> is_dict r = true)) /\
  (process_azure_data data = None <->
   json_truthy data = true /\
   ~ (exists m, data = JObj m /\
        forall k r, k <> "Current Impact" -> m !! k = Some r ->
                    is_dict r = true)).
Proof.
  split; [| split].
  - intros H. split; now apply process_falsy.
  - unfold process_aws_data. rewrite process_raises.
    split; intros [T H]; (split; [exact T |]);
      intros (m & -> & Hm); apply H; exists m; (split; [reflexivity |]).
    + intros k r _. apply Hm.
    + intros k r. now apply Hm.
  - unfold process_azure_data. rewrite process_raises.
    split; intros [T H]; (split; [exact T |]);
      intros (m & -> & Hm); apply H; exists m; (split; [reflexivity |]).
    + intros k r Hk. apply Hm. now apply String.eqb_neq.
    + intros k r Hk. apply Hm. now apply String.eqb_neq in Hk.
Qed.

(** X24 at an Azure file whose only geography is a list. *)
Lemma status_tree_errors_witness :
  process_azure_data (JObj {[ "Europe" := JArr [] ]}) = None.
Proof.
  apply (proj2 (proj2 (status_tree_default_and_errors
                         (JObj {[ "Europe" := JArr [] ]})))).
  split; [reflexivity |].
  intros (m & [= <-] & H).
  specialize (H "Europe" (JArr [])). discriminate H.
  - discriminate.
  - reflexivity.
Defined.

(** X25: the top-level status hides small numbers of issues.  If the input
    is a dict of dicts in which no region has more than two red services,
    both functions report "green" and "OPERATIONAL", however many regions
    are affected. *)
Theorem few_issues_show_operational m :
  ((forall k r, m !! k = Some r -> is_dict r = true) ->
   (forall k regions region g,
      m !! k = Some (JObj regions) -> regions !! region = Some (JObj g) ->
      region_red_issues (fun _ => false) get_aws_status_color g <= 2) ->
   exists p, process_aws_data (JObj m) = Some (p, "green", "OPERATIONAL")) /\
  ((forall k r, k <> "Current Impact" -> m !! k = Some r ->
                is_dict r = true) ->
   (forall k regions region g,
      k <> "Current Impact" ->
      m !! k = Some (JObj regions) -> regions !! region = Some (JObj g) ->
      region_red_issues (fun group_name => String.eqb group_name "_region_stats")
        get_azure_status_color g <= 2) ->
   exists p, process_azure_data (JObj m) = Some (p, "green", "OPERATIONAL")).
Proof.
  split; intros Hd Hr.
  - apply (masking _ _ _ _ (JObj m) m eq_refl).
    + intros k r _. apply Hd.
    + intros k regions region g _. apply Hr.
  - apply (masking _ _ _ _ (JObj m) m eq_refl).
    + intros k r Hk. apply Hd. now apply String.eqb_neq.
    + intros k regions region g Hk. apply Hr. now apply String.eqb_neq.
Qed.

(** X25 at an AWS file with one region in which two services are down. *)
Lemma few_issues_witness :
  exists p,
    process_aws_data
      (JObj {[ "Americas" :=
                 JObj {[ "us-east-1" :=
                           JObj {[ "Compute" :=
                                     JObj {[ "EC2" := JStr "Service disruption";
                                             "Lambda" := JStr "Degraded" ]} ]} ]} ]})
    = Some (p, "green", "OPERATIONAL").
Proof.
  apply (proj1 (few_issues_show_operational _)).
  - intros k r [<- <-]%lookup_singleton_Some. reflexivity.
  - intros k regions region g [<- [= <-]]%lookup_singleton_Some
      [<- [= <-]]%lookup_singleton_Some.
    vm_compute. discriminate.
Defined.

(** X26: the statistics stored for a region that is a dict.  Its
    "_region_stats" entry holds the colour of the red count, the green count
    and the total count of the groups processed; the counts are not
    negative and green plus red is at most the total, with equality for AWS
    (every service is green or red), and the region counts as red exactly
    when more than two services are red. *)
Theorem region_statistics g :
  let aws_skip := fun _ : string => false in
  let azure_skip := fun group_name => String.eqb group_name "_region_stats" in
  (exists d,
     process_region aws_skip get_aws_status_color aws_service_entry (JObj g) =
       (JObj d, 2 <? region_red_issues aws_skip get_aws_status_color g) /\
     d !! "_region_stats" =
       Some (region_stats
               (calculate_status_color
                  (region_red_issues aws_skip get_aws_status_color g))
               (region_green_services aws_skip get_aws_status_color g)
               (total_services_in_region aws_skip g))) /\
  (0 <= region_green_services aws_skip get_aws_status_color g /\
   0 <= region_red_issues aws_skip get_aws_status_color g /\
   region_green_services aws_skip get_aws_status_color g
     + region_red_issues aws_skip get_aws_status_color g
   = total_services_in_region aws_skip g) /\
  (exists d,
     process_region azure_skip get_azure_status_color azure_service_entry
       (JObj g) =
       (JObj d, 2 <? region_red_issues azure_skip get_azure_status_color g) /\
     d !! "_region_stats" =
       Some (region_stats
               (calculate_status_color
                  (region_red_issues azure_skip get_azure_status_color g))
               (region_green_services azure_skip get_azure_status_color g)
               (total_services_in_region azure_skip g))) /\
  (0 <= region_green_services azure_skip get_azure_status_color g /\
   0 <= region_red_issues azure_skip get_azure_status_color g /\
   region_green_services azure_skip get_azure_status_color g
     + region_red_issues azure_skip get_azure_status_color g
   <= total_services_in_region azure_skip g).
Proof.
  cbv zeta. split; [apply region_stats_stored |].
  split; [| split; [apply region_stats_stored | apply region_counts_le]].
  destruct (region_counts_le (fun _ => false) get_aws_status_color g)
    as (H1 & H2 & _).
  split; [exact H1 |]. split; [exact H2 |].
  unfold region_green_services, region_red_issues, total_services_in_region.
  rewrite <- sum_values_add. apply sum_values_ext. intros k v _.
  apply count_values_partition. intros x.
  destruct (aws_colors x) as [-> | ->]; reflexivity.
Qed.

(** X27: the status that [get_current_status_data] records for Azure or
    AWS.  It is "ERROR", which normalizes to major_outage, exactly when
    processing raised.  Otherwise it is a label that normalizes to
    operational or degraded, and the colour recorded with it is green
    exactly when the label normalizes to operational. *)
Theorem tree_status_normalized data :
  let aws := tree_status (process_aws_data data) in
  let azure := tree_status (process_azure_data data) in
  (normalize_status aws.1 = "major_outage" <-> process_aws_data data = None) /\
  (normalize_status azure.1 = "major_outage" <->
   process_azure_data data = None) /\
  (process_aws_data data <> None ->
   In (normalize_status aws.1) ["operational"; "degraded"] /\
   (aws.2 = "green" <-> normalize_status aws.1 = "operational")) /\
  (process_azure_data data <> None ->
   In (normalize_status azure.1) ["operational"; "degraded"] /\
   (azure.2 = "green" <-> normalize_status azure.1 = "operational")).
Proof.
  assert (G : forall r : option (Json * string * string),
    (forall p c l, r = Some (p, c, l) ->
       exists n, c = calculate_status_color n /\ l = calculate_status_label n) ->
    (normalize_status (tree_status r).1 = "major_outage" <-> r = None) /\
    (r <> None ->
     In (normalize_status (tree_status r).1) ["operational"; "degraded"] /\
     ((tree_status r).2 = "green" <->
      normalize_status (tree_status r).1 = "operational"))).
  { intros [[[p c] l]|] H.
    - destruct (H p c l eq_refl) as (n & -> & ->).
      cbn [tree_status fst snd]. rewrite normalize_label.
      unfold calculate_status_color.
      destruct (n =? 0).
      + split; [split; discriminate |]. intros _. split; [now left |].
        split; reflexivity.
      + split; [split; discriminate |]. intros _. split; [right; now left |].
        destruct (n <=? 2); split; discriminate.
    - split; [split; reflexivity |]. intros H'. congruence. }
  cbv zeta.
  destruct (G (process_aws_data data)) as [A1 A2].
  { intros p c l. apply process_label. }
  destruct (G (process_azure_data data)) as [B1 B2].
  { intros p c l. apply process_label. }
  auto.
Qed.

(** X27 at an AWS file that holds the empty dict. *)
Lemma tree_status_witness :
  In (normalize_status
        (tree_status (process_aws_data (JObj ∅))).1)
     ["operational"; "degraded"].
Proof.
  apply (proj1 (proj2 (proj2 (tree_status_normalized (JObj ∅))))).
  discriminate.
Defined.
